(** * lydata: conversion primitives of the UMCG hypopharynx/larynx mappings

    A shallow embedding of the conversion primitives defined in
    [2025-umcg-hypopharynx-larynx/mapping_radiotherapy.py] and
    [2025-umcg-hypopharynx-larynx/mapping_surgery.py], and of
    [icd_to_location] from [scripts/shared.py].

    Python values are modelled by the inductive type [cell]; a call that
    may raise returns a [result].  The two interpreter services used by
    the primitives are modelled as follows:
    - [int(...)] is written out ([py_int]); text is ASCII throughout
      (every character has a code below 128), so only the characters 0-9
      count as digits, for [int] and for [\d], and only the codes 9 to 13
      and 32 as space for [int];
    - [dateparser.parse], a third-party library, is a parameter of the
      section that holds the date primitives. *)

From Stdlib Require Import ZArith QArith Ascii String List Lia.
From Stdlib Require Import DecimalString DecimalN DecimalPos OrderedTypeEx.
From stdpp Require Import base decidable option list gmap strings.

Local Open Scope string_scope.
Local Open Scope Z_scope.

(** ** Exceptions and results *)

Inductive exn_class :=
| ValueError | TypeError | KeyError | OverflowError | AttributeError.

#[global] Instance exn_class_eq_dec : EqDecision exn_class.
Proof. solve_decision. Defined.

(** An exception is its class and its message.  Messages of errors raised
    by the interpreter itself are shortened; handlers select by class. *)
Record exn := Exn { exn_cls : exn_class; exn_msg : string }.

Inductive result (A : Type) :=
| Ok (a : A)
| Raise (e : exn).
Arguments Ok {A} a.
Arguments Raise {A} e.

(** Sequencing: an exception raised by the first call skips the rest. *)
#[global] Instance result_bind : MBind result := fun A B k r =>
  match r with
  | Ok a => k a
  | Raise e => Raise e
  end.

#[global] Instance result_fmap : FMap result := fun A B f r =>
  match r with
  | Ok a => Ok (f a)
  | Raise e => Raise e
  end.

(** [try: body except classes: handler] *)
Definition try_except {A} (body : result A) (classes : list exn_class)
    (handler : result A) : result A :=
  match body with
  | Ok a => Ok a
  | Raise e => if bool_decide (exn_cls e ∈ classes) then handler else Raise e
  end.

Definition raises {A} (r : result A) : Prop := exists e, r = Raise e.

(** ** Raw cells

    A raw cell as [pandas] hands it to a primitive: [None], a float NaN, an
    integer, a finite float (its exact rational value), an infinite float,
    text or a boolean. *)
Inductive cell :=
| CNone
| CNaN
| CInt (z : Z)
| CFloat (q : Q)
| CInf (negative : bool)
| CStr (s : string)
| CBool (b : bool).

(** [pd.isna(entry)] *)
Definition isna (entry : cell) : bool :=
  match entry with
  | CNone | CNaN => true
  | _ => false
  end.

(** *** [int(str)] on ASCII text: optional surrounding whitespace (tab,
    line feed, vertical tab, form feed, carriage return, space), optional
    sign, decimal digits with single underscores between digits. *)

Definition is_space (a : ascii) : bool :=
  let n := nat_of_ascii a in
  ((9 <=? n) && (n <=? 13) || (n =? 32))%nat.

Definition is_digit (a : ascii) : bool :=
  let n := nat_of_ascii a in ((48 <=? n) && (n <=? 57))%nat.

Definition digit_value (a : ascii) : Z := Z.of_nat (nat_of_ascii a) - 48.

Fixpoint lstrip (l : list ascii) : list ascii :=
  match l with
  | a :: l' => if is_space a then lstrip l' else l
  | [] => []
  end.

Definition strip (l : list ascii) : list ascii :=
  rev (lstrip (rev (lstrip l))).

(** [after_digit] records that the previous character was a digit: an
    underscore is accepted only there, and the literal must end there. *)
Fixpoint parse_digits (acc : Z) (after_digit : bool) (l : list ascii)
    : option Z :=
  match l with
  | [] => if after_digit then Some acc else None
  | a :: l' =>
      if is_digit a then parse_digits (10 * acc + digit_value a) true l'
      else if Ascii.eqb a "_" then
        if after_digit then parse_digits acc false l' else None
      else None
  end.

Definition int_of_string (s : string) : option Z :=
  match strip (list_ascii_of_string s) with
  | "+"%char :: l => parse_digits 0 false l
  | "-"%char :: l => Z.opp <$> parse_digits 0 false l
  | l => parse_digits 0 false l
  end.

(** [int(entry)] *)
Definition py_int (entry : cell) : result Z :=
  match entry with
  | CNone => Raise (Exn TypeError "int() argument must be a string or a real number")
  | CNaN => Raise (Exn ValueError "cannot convert float NaN to integer")
  | CInf _ => Raise (Exn OverflowError "cannot convert float infinity to integer")
  | CInt z => Ok z
  | CBool b => Ok (Z.b2z b)
  | CFloat q => Ok (Z.quot (Qnum q) (Z.pos (Qden q)))
  | CStr s =>
      match int_of_string s with
      | Some z => Ok z
      | None => Raise (Exn ValueError "invalid literal for int() with base 10")
      end
  end.

(** [z < threshold] for an integer [z] *)
Definition py_int_lt (z : Z) (threshold : cell) : result bool :=
  match threshold with
  | CInt t => Ok (z <? t)
  | CBool b => Ok (z <? Z.b2z b)
  | CFloat q => Ok (z * Z.pos (Qden q) <? Qnum q)
  | CInf negative => Ok (negb negative)
  | CNaN => Ok false
  | CNone | CStr _ =>
      Raise (Exn TypeError "'<' not supported between these instances")
  end.

(** ** Scalar primitives *)

Definition robust_int (entry : cell) : result (option Z) :=
  try_except (z ← py_int entry; Ok (Some z))
    [ValueError; TypeError] (Ok None).

Definition robust_bool (entry : cell) : result (option bool) :=
  if isna entry then Ok None
  else
    try_except (z ← py_int entry; Ok (Some (negb (z =? 0))))
      [ValueError] (Ok None).

Definition is_smaller_or_nan (entry threshold : cell) : result (option bool) :=
  if isna entry then Ok (Some true)
  else
    try_except (z ← py_int entry; b ← py_int_lt z threshold; Ok (Some b))
      [ValueError] (Ok None).

(** ** Categorical remaps *)

(** [mapping[key]] on a dict with integer keys *)
Definition dict_getitem {V} (mapping : gmap Z V) (key : Z) : result V :=
  match mapping !! key with
  | Some v => Ok v
  | None => Raise (Exn KeyError "key not found")
  end.

Definition n_stage_table : gmap Z Z :=
  list_to_map [(0, 0); (1, 1); (2, 2); (3, 2); (4, 2); (5, 3); (9, 0)].

Definition m_stage_table : gmap Z Z :=
  list_to_map [(0, 0); (1, 1); (9, -1)].

Definition n_stage_mapping (entry : cell) : result (option Z) :=
  try_except (k ← py_int entry; v ← dict_getitem n_stage_table k; Ok (Some v))
    [ValueError; TypeError] (Ok None).

Definition m_stage_mapping (entry : cell) : result (option Z) :=
  try_except (k ← py_int entry; v ← dict_getitem m_stage_table k; Ok (Some v))
    [ValueError; TypeError] (Ok None).

Definition subsite_table : gmap Z string :=
  list_to_map
    [(16, "C13.0"); (17, "C12"); (18, "C13.2"); (19, "C32.1"); (20, "C32.0");
     (21, "C32.2"); (221, "C32.0")].

Definition location_table : gmap Z string :=
  list_to_map
    [(16, "hypopharynx"); (17, "hypopharynx"); (18, "hypopharynx");
     (19, "larynx"); (20, "larynx"); (21, "larynx"); (221, "larynx")].

Definition subsite_mapping (entry : cell) : result (option string) :=
  try_except (k ← py_int entry; v ← dict_getitem subsite_table k; Ok (Some v))
    [ValueError; TypeError] (Ok None).

Definition location_mapping (entry : cell) : result (option string) :=
  try_except (k ← py_int entry; v ← dict_getitem location_table k; Ok (Some v))
    [ValueError; TypeError] (Ok None).

(** [SUBSITES] of [scripts/shared.py]: ICD code to (location, name). *)
Definition SUBSITES : gmap string (string * string) :=
  list_to_map [
    ("C00.4", ("oral cavity", "Lower lip, inner aspect"));
    ("C01", ("oropharynx", "Base of Tongue"));
    ("C01.9", ("oropharynx", "Base of Tongue"));
    ("C02", ("oral cavity", "Tongue"));
    ("C02.0", ("oral cavity", "Dorsal surface of tongue"));
    ("C02.1", ("oral cavity", "Border of tongue"));
    ("C02.2", ("oral cavity", "Ventral surface of tongue"));
    ("C02.3", ("oral cavity", "Anterior two-thirds of tongue"));
    ("C02.4", ("oral cavity", "Lingual tonsil"));
    ("C02.8", ("oral cavity", "Overlapping lesion of tongue"));
    ("C02.9", ("oral cavity", "Tongue, unspecified"));
    ("C03", ("oral cavity", "Gum"));
    ("C03.0", ("oral cavity", "Upper gum"));
    ("C03.1", ("oral cavity", "Lower gum"));
    ("C03.9", ("oral cavity", "Gum, unspecified"));
    ("C04", ("oral cavity", "Floor of Mouth"));
    ("C04.0", ("oral cavity", "Anterior floor of mouth"));
    ("C04.1", ("oral cavity", "Lateral floor of mouth"));
    ("C04.8", ("oral cavity", "Overlapping lesion of floor of mouth"));
    ("C04.9", ("oral cavity", "Floor of mouth, unspecified"));
    ("C05", ("oral cavity", "Palate"));
    ("C05.0", ("oral cavity", "Hard palate"));
    ("C05.1", ("oral cavity", "Soft palate"));
    ("C05.2", ("oral cavity", "Uvula"));
    ("C05.8", ("oral cavity", "Overlapping lesion of palate"));
    ("C05.9", ("oral cavity", "Palate, unspecified"));
    ("C06", ("oral cavity", "Other and unspecified parts of mouth"));
    ("C06.0", ("oral cavity", "Cheek mucosa"));
    ("C06.1", ("oral cavity", "Vestibule of mouth"));
    ("C06.2", ("oral cavity", "Retromolar area"));
    ("C06.8", ("oral cavity", "Overlapping lesion of other and unspecified parts of mouth"));
    ("C06.9", ("oral cavity", "Mouth, unspecified"));
    ("C09", ("oropharynx", "Tonsil"));
    ("C09.0", ("oropharynx", "Tonsillar fossa"));
    ("C09.1", ("oropharynx", "Tonsillar pillar (anterior)(posterior)"));
    ("C09.8", ("oropharynx", "Overlapping lesion of tonsil"));
    ("C09.9", ("oropharynx", "Tonsil, unspecified"));
    ("C10", ("oropharynx", "Oropharynx"));
    ("C10.0", ("oropharynx", "Vallecula"));
    ("C10.1", ("oropharynx", "Anterior surface of epiglottis"));
    ("C10.2", ("oropharynx", "Lateral wall of oropharynx"));
    ("C10.3", ("oropharynx", "Posterior wall of oropharynx"));
    ("C10.4", ("oropharynx", "Branchial cleft"));
    ("C10.8", ("oropharynx", "Overlapping lesion of oropharynx"));
    ("C10.9", ("oropharynx", "Oropharynx, unspecified"));
    ("C12", ("hypopharynx", "Piriform sinus"));
    ("C12.9", ("hypopharynx", "Piriform sinus"));
    ("C13", ("hypopharynx", "Hypopharynx"));
    ("C13.0", ("hypopharynx", "Postcricoid region"));
    ("C13.1", ("hypopharynx", "Aryepiglottic fold, hypopharyngeal aspect"));
    ("C13.2", ("hypopharynx", "Posterior wall of hypopharynx"));
    ("C13.8", ("hypopharynx", "Overlapping lesion of hypopharynx"));
    ("C13.9", ("hypopharynx", "Hypopharynx, unspecified"));
    ("C32", ("larynx", "Larynx"));
    ("C32.0", ("larynx", "Glottis"));
    ("C32.1", ("larynx", "Supraglottis"));
    ("C32.2", ("larynx", "Subglottis"));
    ("C32.3", ("larynx", "Laryngeal cartilage"));
    ("C32.8", ("larynx", "Overlapping lesion of larynx"));
    ("C32.9", ("larynx", "Larynx, unspecified"))
  ].

Definition icd_to_location (icd_code : string) : string :=
  match SUBSITES !! icd_code with
  | Some entry => fst entry
  | None => "unknown"
  end.

(** ** Staged T mapping (surgery)

    [re.match(r"T(\d)([a-c]|NOS)?", text)]: anchored at the start of the
    text only.  The match object keeps the two groups. *)
Record re_match := ReMatch { group1 : ascii; group2 : option string }.

Definition t_suffix (rest : string) : option string :=
  match rest with
  | String c rest' =>
      if (Ascii.eqb c "a" || Ascii.eqb c "b" || Ascii.eqb c "c")%bool
      then Some (String c "")
      else if String.prefix "NOS" rest then Some "NOS" else None
  | EmptyString => None
  end.

Definition match_t_pattern (text : string) : option re_match :=
  match text with
  | String "T" (String d rest) =>
      if is_digit d then Some (ReMatch d (t_suffix rest)) else None
  | _ => None
  end.

(** [re.match(pattern, cell)]: only text can be searched. *)
Definition re_match_t (pathological : cell) : result (option re_match) :=
  match pathological with
  | CStr text => Ok (match_t_pattern text)
  | _ => Raise (Exn TypeError "expected string or bytes-like object")
  end.

Definition t_stage_mapping (clinical pathological : cell) : result (option Z) :=
  hit ← (if negb (isna pathological) then
           m ← re_match_t pathological;
           match m with
           | Some m => z ← py_int (CStr (String (group1 m) "")); Ok (Some z)
           | None => Ok None
           end
         else Ok None);
  match hit with
  | Some z => Ok (Some z)
  | None => robust_int clinical
  end.

Definition t_stage_prefix (clinical pathological : cell) : result string :=
  hit ← (if negb (isna pathological) then
           m ← re_match_t pathological; Ok (bool_decide (is_Some m))
         else Ok false);
  if (hit : bool) then Ok "p" else Ok "c".

(** ** Dates and number formatting *)

Record date := Date { year : N; month : N; day : N }.

Definition decimal (n : N) : string := NilEmpty.string_of_uint (N.to_uint n).

Definition zeros (k : nat) : string := string_of_list_ascii (replicate k "0"%char).

(** Left padding with zeros up to [width] characters. *)
Definition zero_pad (width : nat) (s : string) : string :=
  zeros (width - String.length s) ++ s.

(** The format specification [04d]: the sign counts in the width. *)
Definition format_04d (z : Z) : string :=
  if z <? 0 then "-" ++ zero_pad 3 (decimal (Z.to_N (- z)))
  else zero_pad 4 (decimal (Z.to_N z)).

(** [d.strftime("%Y-%m-%d")].  Years from 1000 on are written with their
    four digits everywhere; below 1000 the C library decides on the
    padding, written here as zeros. *)
Definition strftime (d : date) : string :=
  zero_pad 4 (decimal (year d)) ++ "-" ++ zero_pad 2 (decimal (month d))
  ++ "-" ++ zero_pad 2 (decimal (day d)).

(** One step of [min]: the running minimum [m] is replaced only by a
    strictly smaller element. *)
Definition keep_smaller (m x : string) : string :=
  if String.ltb x m then x else m.

(** [min(dates)] on a list of strings: the first smallest element. *)
Definition py_min (dates : list string) : result string :=
  match dates with
  | [] => Raise (Exn ValueError "min() arg is an empty sequence")
  | d :: rest => Ok (fold_left keep_smaller rest d)
  end.

Definition truthy (flag : option bool) : bool :=
  match flag with
  | Some true => true
  | _ => false
  end.

Definition date_without_recurrence : exn :=
  Exn ValueError "Date of recurrence is set, but no recurrence is reported.".

Definition recurrence_without_date : exn :=
  Exn ValueError "Recurrence is reported, but no date of recurrence is set.".

Section DatePrimitives.

(** [dateparser.parse] on text, as it answers during one run: the parsed
    date, or [None] when the text is not understood. *)
Variable dateparse : string -> option date.

(** [dateparse(entry).strftime("%Y-%m-%d")]: the library accepts text
    only, and [None] has no [strftime]. *)
Definition parse_and_format (entry : cell) : result string :=
  match entry with
  | CStr text =>
      match dateparse text with
      | Some d => Ok (strftime d)
      | None => Raise (Exn AttributeError "'NoneType' object has no attribute 'strftime'")
      end
  | _ => Raise (Exn TypeError "Input type must be str")
  end.

Definition robust_date (entry : cell) : result (option string) :=
  if isna entry then Ok None
  else
    try_except (s ← parse_and_format entry; Ok (Some s))
      [ValueError; AttributeError] (Ok None).

(** The loop of [get_earlier_date], [dates] being the list built so far. *)
Fixpoint collect_dates (date_entries : list cell) (dates : list string)
    : result (list string) :=
  match date_entries with
  | [] => Ok dates
  | date_entry :: rest =>
      if isna date_entry then collect_dates rest dates
      else
        dates' ← try_except (s ← parse_and_format date_entry; Ok (dates ++ [s])%list)
                   [ValueError; AttributeError] (Ok dates);
        collect_dates rest dates'
  end.

Definition get_earlier_date (date_entries : list cell) : result string :=
  dates ← collect_dates date_entries [];
  py_min dates.

Definition safe_recurrence_date (rec date : cell) : result (option string) :=
  rec ← robust_bool rec;
  date ← robust_date date;
  if (negb (truthy rec) && bool_decide (is_Some date))%bool
  then Raise date_without_recurrence
  else if (truthy rec && bool_decide (date = None))%bool
  then Raise recurrence_without_date
  else Ok date.

End DatePrimitives.

(** ** ID counter

    The closure returned by [create_id_counter] owns the variable
    [counter] and the fixed [prefix]; a call returns the ID together with
    the closure after the call. *)
Record id_counter_closure := IdCounter { counter : Z; prefix : string }.

Definition create_id_counter (start : Z) (prefix : string) : id_counter_closure :=
  IdCounter start prefix.

Definition id_counter (c : id_counter_closure) : string * id_counter_closure :=
  let res := prefix c ++ format_04d (counter c) in
  (res, IdCounter (counter c + 1) (prefix c)).

(** The IDs returned by [n] successive calls, in call order. *)
Fixpoint id_calls (n : nat) (c : id_counter_closure) : list string :=
  match n with
  | O => []
  | S n' => let '(res, c') := id_counter c in res :: id_calls n' c'
  end.

(** ** A fragment of [dateparser.parse]

    Used for the concrete examples only.  The library reads far more
    formats; this fragment answers on complete ISO dates and on the
    relative words [now] and [today], which the library resolves against
    the clock of the machine (its date being [now]).  Years below 1000 are
    left to the library. *)

Definition is_leap (y : N) : bool :=
  ((y mod 4 =? 0) && (negb (y mod 100 =? 0) || (y mod 400 =? 0)))%N.

Definition days_in_month (y m : N) : N :=
  match m with
  | 2 => if is_leap y then 29 else 28
  | 4 | 6 | 9 | 11 => 30
  | _ => 31
  end%N.

(** A date that a [datetime] can hold. *)
Definition valid_date (d : date) : bool :=
  ((1 <=? year d) && (year d <=? 9999) && (1 <=? month d) && (month d <=? 12)
   && (1 <=? day d) && (day d <=? days_in_month (year d) (month d)))%N.

(** A date whose year has four digits. *)
Definition four_digit_year (d : date) : bool := (1000 <=? year d)%N.

Definition digit_N (a : ascii) : N := N.of_nat (nat_of_ascii a) - 48.

Definition parse_iso (text : string) : option date :=
  match list_ascii_of_string text with
  | [y1; y2; y3; y4; s1; m1; m2; s2; d1; d2] =>
      if (forallb is_digit [y1; y2; y3; y4; m1; m2; d1; d2]
          && Ascii.eqb s1 "-" && Ascii.eqb s2 "-")%bool then
        let d := Date (1000 * digit_N y1 + 100 * digit_N y2 + 10 * digit_N y3 + digit_N y4)
                      (10 * digit_N m1 + digit_N m2) (10 * digit_N d1 + digit_N d2) in
        if (valid_date d && four_digit_year d)%bool then Some d else None
      else None
  | _ => None
  end%N.

Definition dateparser_at (now : date) (text : string) : option date :=
  if (String.eqb text "now" || String.eqb text "today")%bool then Some now
  else parse_iso text.

(** ** Predicates used in the statements *)

(** The shape [YYYY-MM-DD]. *)
Definition is_iso_date (s : string) : bool :=
  match list_ascii_of_string s with
  | [y1; y2; y3; y4; s1; m1; m2; s2; d1; d2] =>
      (forallb is_digit [y1; y2; y3; y4; m1; m2; d1; d2]
       && Ascii.eqb s1 "-" && Ascii.eqb s2 "-")%bool
  | _ => false
  end.

(** Exactly [k] characters, all of them digits. *)
Definition digits_exactly (k : nat) (s : string) : bool :=
  ((String.length s =? k)%nat && forallb is_digit (list_ascii_of_string s))%bool.

(** Reading a run of decimal digits back as a number. *)
Definition read_decimal (s : string) : option N :=
  N.of_uint <$> NilEmpty.uint_of_string s.

(** Reading back what [format_04d] wrote. *)
Definition read_04d (s : string) : option Z :=
  match s with
  | String c r =>
      if Ascii.eqb c "-" then (fun n => - Z.of_N n) <$> read_decimal r
      else Z.of_N <$> read_decimal s
  | EmptyString => None
  end.

(** A cell of a text column: text, or missing. *)
Definition text_or_missing (entry : cell) : bool :=
  match entry with
  | CNone | CNaN | CStr _ => true
  | _ => false
  end.

(** The error raised by the recurrence check itself. *)
Definition consistency_error (e : exn) : Prop :=
  e = date_without_recurrence \/ e = recurrence_without_date.

(** Input that [int] does not take for a number: a missing value, or text
    that is not an integer literal. *)
Definition non_numeric (entry : cell) : bool :=
  match entry with
  | CNone | CNaN => true
  | CStr s => bool_decide (int_of_string s = None)
  | _ => false
  end.

(** The recurrence flag as the check reads it: the truth value of what
    [robust_bool] returns, null counting as false. *)
Definition flag_is (rec : cell) (b : bool) : Prop :=
  exists o, robust_bool rec = Ok o /\ truthy o = b.

(** The pattern of the staged T mapping read as a description of the text:
    [T], a digit [d], optionally one of [a], [b], [c] or [NOS], then
    anything ([re.match] does not anchor the end). *)
Definition matches_t_pattern (text : string) (d : ascii) : Prop :=
  is_digit d = true /\
  exists suffix rest,
    In suffix [""; "a"; "b"; "c"; "NOS"] /\
    text = String "T" (String d (suffix ++ rest)).

(** The dates obtained from the parseable, non-missing inputs, in input
    order: what [robust_date] makes of each entry, nulls left out. *)
Definition parsed_dates (dateparse : string -> option date) (entries : list cell)
    : list string :=
  omap (fun e => match robust_date dateparse e with
                 | Ok (Some s) => Some s
                 | _ => None
                 end) entries.

(** All characters are decimal digits. *)
Definition all_digits (s : string) : bool :=
  forallb is_digit (list_ascii_of_string s).

(** A number written with its sign and its absolute value padded with
    zeros to at least four digits, as the description of the ID reads. *)
Definition padded_to_four_digits (z : Z) : string :=
  (if z <? 0 then "-" else "") ++ zero_pad 4 (decimal (Z.abs_N z)).

(** ** Outcome classifiers (both mapping files) *)

Definition is_dead (entry : cell) : result (option bool) :=
  entry ← robust_int entry;
  match entry with
  | Some z => Ok (Some (existsb (Z.eqb z) [3; 4; 5]))
  | None => Ok None
  end.

(** [entry == k] after [robust_int]: null equals no integer. *)
Definition opt_int_eq (entry : option Z) (k : Z) : bool :=
  match entry with
  | Some z => z =? k
  | None => false
  end.

Definition cause_of_death (entry : cell) : result (option string) :=
  entry ← robust_int entry;
  if opt_int_eq entry 3 then Ok (Some "other")
  else if opt_int_eq entry 4 then Ok (Some "tumor")
  else if opt_int_eq entry 5 then Ok (Some "complication")
  else Ok None.

Definition had_complication (entry : cell) : result (option bool) :=
  entry ← robust_int entry;
  match entry with
  | Some z => Ok (Some (z =? 5))
  | None => Ok None
  end.

(** ** Leaves written as lambdas in [COLUMN_MAP] *)

(** [x == k] for a cell [x] and an integer constant [k]: numbers compare
    by value, a boolean as 0 or 1, anything else is unequal. *)
Definition py_eq_int (x : cell) (k : Z) : bool :=
  match x with
  | CInt z => z =? k
  | CFloat q => Qeq_bool q (inject_Z k)
  | CBool b => Z.b2z b =? k
  | CNone | CNaN | CInf _ | CStr _ => false
  end.

(** The leaf [t_stage] of the radiotherapy map:
    [0 if x == 8 else robust_int(x)]. *)
Definition t_stage_leaf (x : cell) : result (option Z) :=
  if py_eq_int x 8 then Ok (Some 0) else robust_int x.

(** ** The surgery variants of the N and M remaps, and the neck dissection *)

(** [re.match] with a pattern that starts with one letter and one digit
    group, [N(\d)[a-c]?] or [M(\d)]: what follows the digit never decides
    the match, and only [group(1)] is read. *)
Definition match_letter_digit (letter : ascii) (text : string) : option ascii :=
  match text with
  | String c (String d _) =>
      if (Ascii.eqb c letter && is_digit d)%bool then Some d else None
  | _ => None
  end.

Definition re_match_letter_digit (letter : ascii) (pathological : cell)
    : result (option ascii) :=
  match pathological with
  | CStr text => Ok (match_letter_digit letter text)
  | _ => Raise (Exn TypeError "expected string or bytes-like object")
  end.

Module Surgery.

Definition n_stage_mapping (clinical pathological : cell) : result (option Z) :=
  hit ← (if negb (isna pathological) then
           m ← re_match_letter_digit "N" pathological;
           match m with
           | Some d => z ← py_int (CStr (String d "")); Ok (Some z)
           | None => Ok None
           end
         else Ok None);
  match hit with
  | Some z => Ok (Some z)
  | None =>
      try_except (k ← py_int clinical; v ← dict_getitem n_stage_table k; Ok (Some v))
        [ValueError; TypeError] (Ok None)
  end.

Definition m_stage_mapping (clinical pathological : cell) : result (option Z) :=
  hit ← (if negb (isna pathological) then
           m ← re_match_letter_digit "M" pathological;
           match m with
           | Some d => z ← py_int (CStr (String d "")); Ok (Some z)
           | None => Ok None
           end
         else Ok None);
  match hit with
  | Some z => Ok (Some z)
  | None =>
      try_except (k ← py_int clinical; v ← dict_getitem m_stage_table k; Ok (Some v))
        [ValueError; TypeError] (Ok None)
  end.

(** [isinstance(robust_date(entry), str)] for a non-missing entry. *)
Definition had_neck_dissection (dateparse : string -> option date) (entry : cell)
    : result (option bool) :=
  if isna entry then Ok None
  else d ← robust_date dateparse entry; Ok (Some (bool_decide (is_Some d))).

End Surgery.

(** ** Patient IDs of [scripts/assign_ids.py] *)

(** [str(i)] *)
Definition py_str (i : Z) : string :=
  if i <? 0 then "-" ++ decimal (Z.to_N (- i)) else decimal (Z.to_N i).

Definition upper_char (a : ascii) : ascii :=
  let n := nat_of_ascii a in
  if ((97 <=? n) && (n <=? 122))%nat then ascii_of_nat (n - 32) else a.

(** [s.upper()] on ASCII text *)
Fixpoint upper (s : string) : string :=
  match s with
  | EmptyString => EmptyString
  | String a s' => String (upper_char a) (upper s')
  end.

(** [range(start, start + num)] *)
Definition py_range (start num : Z) : list Z :=
  map (fun k => start + Z.of_nat k) (seq 0 (Z.to_nat num)).

Section GenerateIds.

(** [math.ceil(math.log10(num))] for [num >= 1]: a float computation, taken
    as it comes.  For [num <= 0] the logarithm raises. *)
Variable num_width_of : Z -> nat.

Definition generate_ids (year institution : string) (num start : Z)
    (suffix : string) : result (list string) :=
  let base := year ++ "-" ++ upper institution ++ suffix in
  if num <=? 0 then Raise (Exn ValueError "math domain error")
  else
    let num_width := num_width_of num in
    Ok (map (fun i => base ++ "-" ++ zero_pad num_width (py_str i))
          (py_range start num)).

End GenerateIds.

(** The name pattern of [ensure_valid],
    [([1-9][0-9]{3})-([a-z]+)-([a-z\-]+)], matched at the start of the
    name: each of the two last groups takes the longest run it can. *)

Definition is_lower (a : ascii) : bool :=
  let n := nat_of_ascii a in ((97 <=? n) && (n <=? 122))%nat.

Definition is_nonzero_digit (a : ascii) : bool :=
  let n := nat_of_ascii a in ((49 <=? n) && (n <=? 57))%nat.

Definition is_lower_or_hyphen (a : ascii) : bool :=
  (is_lower a || Ascii.eqb a "-")%bool.

(** The longest prefix whose characters satisfy [p], and the rest. *)
Fixpoint span (p : ascii -> bool) (l : list ascii) : list ascii * list ascii :=
  match l with
  | a :: l' =>
      if p a then let '(run, rest) := span p l' in (a :: run, rest) else ([], l)
  | [] => ([], [])
  end.

Definition dataset_name_match (name : string) : option (string * string * string) :=
  match list_ascii_of_string name with
  | y1 :: y2 :: y3 :: y4 :: sep :: l =>
      if (is_nonzero_digit y1 && forallb is_digit [y2; y3; y4]
          && Ascii.eqb sep "-")%bool then
        match span is_lower l with
        | (i1 :: institution, sep' :: l') =>
            if Ascii.eqb sep' "-" then
              match span is_lower_or_hyphen l' with
              | (r1 :: rest, _) =>
                  Some (string_of_list_ascii [y1; y2; y3; y4],
                        string_of_list_ascii (i1 :: institution),
                        string_of_list_ascii (r1 :: rest))
              | ([], _) => None
              end
            else None
        | _ => None
        end
      else None
  | _ => None
  end.

(** [ensure_valid]: the name of the directory, and what the file system
    answers to [is_dir()] and to [is_file()] of the data file. *)
Definition ensure_valid (name : string) (is_dir is_file : bool)
    : result (string * string * string) :=
  match dataset_name_match name with
  | None => Raise (Exn ValueError "is not a valid dataset name")
  | Some groups =>
      if negb is_dir then Raise (Exn ValueError "is not a directory")
      else if negb is_file then Raise (Exn ValueError "does not exist")
      else Ok groups
  end.

(** Reading [zero_pad w (py_str i)] back: leading zeros, then a number
    with its sign. *)
Fixpoint drop_zeros (s : string) : string :=
  match s with
  | String a s' => if Ascii.eqb a "0" then drop_zeros s' else s
  | EmptyString => EmptyString
  end.

Definition read_padded (s : string) : option Z :=
  match drop_zeros s with
  | String a r =>
      if Ascii.eqb a "-" then (fun n => - Z.of_N n) <$> read_decimal r
      else Z.of_N <$> read_decimal (String a r)
  | EmptyString => Some 0
  end.

(** ** Predicates used in the further statements *)

(** The text is empty or starts with a character that fails [p]. *)
Definition stops_at (p : ascii -> bool) (tail : string) : Prop :=
  match tail with
  | String a _ => p a = false
  | EmptyString => True
  end.

(** The shape of the three groups of a dataset name. *)
Definition name_parts_ok (year institution rest : string) : Prop :=
  (exists y1 y, year = String y1 y /\ is_nonzero_digit y1 = true /\
                digits_exactly 3 y = true) /\
  institution <> "" /\
  forallb is_lower (list_ascii_of_string institution) = true /\
  rest <> "" /\
  forallb is_lower_or_hyphen (list_ascii_of_string rest) = true.

Definition is_upper (a : ascii) : bool :=
  let n := nat_of_ascii a in ((65 <=? n) && (n <=? 90))%nat.

(** The locations that [SUBSITES] knows. *)
Definition known_locations : list string :=
  ["oral cavity"; "oropharynx"; "hypopharynx"; "larynx"].

(** The three-character category of an ICD code, as in [C32] of [C32.1]. *)
Definition icd_category (icd_code : string) : string := substring 0 3 icd_code.

(* ================================================================= *)
(** * Properties *)

(** ** Basic facts about [int] and the handlers *)

Lemma py_int_non_numeric entry :
  non_numeric entry = true ->
  exists e, py_int entry = Raise e /\
            (exn_cls e = ValueError \/ (exn_cls e = TypeError /\ entry = CNone)).
Proof.
  destruct entry as [| | z | q | neg | s | b]; simpl; try discriminate; intros H.
  - eexists; split; [reflexivity | right; split; reflexivity].
  - eexists; split; [reflexivity | left; reflexivity].
  - apply bool_decide_eq_true in H. rewrite H.
    eexists; split; [reflexivity | left; reflexivity].
Qed.

Lemma py_int_text_rejected s :
  int_of_string s = None -> exists e, py_int (CStr s) = Raise e /\ exn_cls e = ValueError.
Proof. intros H. simpl. rewrite H. eexists; split; reflexivity. Qed.

Lemma n_stage_lookup entry k v :
  py_int entry = Ok k -> n_stage_table !! k = Some v ->
  n_stage_mapping entry = Ok (Some v).
Proof.
  intros Hk Hv. unfold n_stage_mapping, dict_getitem. rewrite Hk. simpl.
  rewrite Hv. reflexivity.
Qed.

Lemma m_stage_lookup entry k v :
  py_int entry = Ok k -> m_stage_table !! k = Some v ->
  m_stage_mapping entry = Ok (Some v).
Proof.
  intros Hk Hv. unfold m_stage_mapping, dict_getitem. rewrite Hk. simpl.
  rewrite Hv. reflexivity.
Qed.

Lemma remap_non_numeric {V} (table : gmap Z V) entry :
  non_numeric entry = true ->
  try_except (k ← py_int entry; v ← dict_getitem table k; Ok (Some v))
    [ValueError; TypeError] (Ok None) = Ok None.
Proof.
  intros H. destruct (py_int_non_numeric entry H) as (e & -> & Hc). simpl.
  destruct Hc as [-> | [-> _]]; reflexivity.
Qed.

(** A code outside the table is not answered with null: the lookup raises
    and no handler of the remap takes a [KeyError]. *)
Lemma remap_unknown_code {V} (table : gmap Z V) entry k :
  py_int entry = Ok k -> table !! k = None ->
  exists e,
    try_except (k ← py_int entry; v ← dict_getitem table k; Ok (Some v))
      [ValueError; TypeError] (Ok None) = Raise e /\ exn_cls e = KeyError.
Proof.
  intros Hk Hv. rewrite Hk. unfold dict_getitem. simpl. rewrite Hv. simpl.
  eexists; split; reflexivity.
Qed.

(** ** C4: the N-stage and M-stage remaps *)

(** C4, as stated, fails: raw code 7 is outside the N-stage table, and the
    remap raises [KeyError] instead of returning null; the same holds for
    raw code 5 in the M-stage remap. *)
Lemma stage_remap_unknown_code_raises :
  n_stage_table !! 7 = None /\
  n_stage_mapping (CInt 7) = Raise (Exn KeyError "key not found") /\
  n_stage_mapping (CInt 7) <> Ok None /\
  m_stage_table !! 5 = None /\
  m_stage_mapping (CInt 5) = Raise (Exn KeyError "key not found").
Proof. vm_compute. repeat split; discriminate. Qed.

(** C4 (amended): whatever the form of the raw cell, the N-stage remap
    sends each of the codes 2, 3 and 4 to 2, code 9 to 0 and code 5 to 3;
    the M-stage remap sends code 9 to -1 and code 0 to 0; on input that is
    not numeric (missing, or text that is no integer literal) both remaps
    return null.  On a numeric code outside its table (the N-stage table
    has the codes 0, 1, 2, 3, 4, 5 and 9, the M-stage table 0, 1 and 9) a
    remap raises [KeyError]. *)
Theorem stage_remaps_spec (entry : cell) :
  (forall k, py_int entry = Ok k -> k = 2 \/ k = 3 \/ k = 4 ->
             n_stage_mapping entry = Ok (Some 2)) /\
  (py_int entry = Ok 9 -> n_stage_mapping entry = Ok (Some 0)) /\
  (py_int entry = Ok 5 -> n_stage_mapping entry = Ok (Some 3)) /\
  (py_int entry = Ok 9 -> m_stage_mapping entry = Ok (Some (-1))) /\
  (py_int entry = Ok 0 -> m_stage_mapping entry = Ok (Some 0)) /\
  (non_numeric entry = true ->
     n_stage_mapping entry = Ok None /\ m_stage_mapping entry = Ok None) /\
  dom n_stage_table = ({[0; 1; 2; 3; 4; 5; 9]} : gset Z) /\
  dom m_stage_table = ({[0; 1; 9]} : gset Z) /\
  (forall k, py_int entry = Ok k -> k ∉ dom n_stage_table ->
     exists e, n_stage_mapping entry = Raise e /\ exn_cls e = KeyError) /\
  (forall k, py_int entry = Ok k -> k ∉ dom m_stage_table ->
     exists e, m_stage_mapping entry = Raise e /\ exn_cls e = KeyError).
Proof.
  split; [intros k Hk [-> | [-> | ->]]; eapply n_stage_lookup; eauto |].
  split; [intros Hk; eapply n_stage_lookup; eauto |].
  split; [intros Hk; eapply n_stage_lookup; eauto |].
  split; [intros Hk; eapply m_stage_lookup; eauto |].
  split; [intros Hk; eapply m_stage_lookup; eauto |].
  split; [intros H; split; apply remap_non_numeric; assumption |].
  split; [unfold n_stage_table; rewrite dom_list_to_map_L; simpl; set_solver |].
  split; [unfold m_stage_table; rewrite dom_list_to_map_L; simpl; set_solver |].
  split; intros k Hk Hdom; apply (remap_unknown_code _ entry k Hk);
    apply not_elem_of_dom; assumption.
Qed.

Lemma stage_remaps_spec_witness :
  n_stage_mapping (CStr "3") = Ok (Some 2) /\
  m_stage_mapping (CFloat (Qmake 9 1)) = Ok (Some (-1)) /\
  n_stage_mapping (CStr "n/a") = Ok None.
Proof.
  split; [| split].
  - apply (proj1 (stage_remaps_spec (CStr "3")) 3); [reflexivity | auto].
  - apply (proj1 (proj2 (proj2 (proj2 (stage_remaps_spec (CFloat (Qmake 9 1))))))).
    reflexivity.
  - apply (proj1 (proj2 (proj2 (proj2 (proj2 (proj2 (stage_remaps_spec (CStr "n/a")))))))).
    reflexivity.
Defined.

(** ** C5: [robust_bool] *)

Lemma robust_bool_missing entry : isna entry = true -> robust_bool entry = Ok None.
Proof. intros H. unfold robust_bool. rewrite H. reflexivity. Qed.

Lemma robust_bool_of_int entry z :
  py_int entry = Ok z -> robust_bool entry = Ok (Some (negb (z =? 0))).
Proof.
  intros H. unfold robust_bool.
  destruct entry as [| | z0 | q | neg | s | b]; simpl in *; try discriminate.
  - injection H as <-. reflexivity.
  - injection H as <-. reflexivity.
  - destruct (int_of_string s); [injection H as <- | discriminate]. reflexivity.
  - injection H as <-. reflexivity.
Qed.

Lemma robust_bool_non_numeric entry :
  non_numeric entry = true -> robust_bool entry = Ok None.
Proof.
  intros H. destruct (isna entry) eqn:Hna; [apply robust_bool_missing, Hna |].
  unfold robust_bool. rewrite Hna.
  destruct (py_int_non_numeric entry H) as (e & He & Hc). rewrite He. simpl.
  destruct Hc as [-> | [_ ->]]; [reflexivity | discriminate].
Qed.

(** [robust_bool] returns null exactly on missing input and on text that
    is no integer literal. *)
Lemma robust_bool_null_iff entry :
  robust_bool entry = Ok None <-> non_numeric entry = true.
Proof.
  split; [| apply robust_bool_non_numeric].
  destruct entry as [| | z | q | neg | s | b]; simpl; try reflexivity;
    try (unfold robust_bool; simpl; discriminate).
  unfold robust_bool; simpl. destruct (int_of_string s); simpl; [discriminate |].
  intros _. reflexivity.
Qed.

(** C5, as stated, fails: the float 0.5 is a numeric value different from
    0, and [robust_bool] answers false, not true. *)
Lemma robust_bool_nonzero_float_is_false :
  ~ Qeq (Qmake 1 2) (Qmake 0 1) /\
  isna (CFloat (Qmake 1 2)) = false /\
  robust_bool (CFloat (Qmake 1 2)) = Ok (Some false).
Proof. split; [intros H; discriminate H | split; reflexivity]. Qed.

(** C5 (amended): [robust_bool] returns null on missing input and on
    non-missing input that is not numeric; otherwise it follows the
    truthiness of the integer [int(entry)]: false when that integer is 0,
    true when it is not.  A finite float is truncated toward zero first, so
    it yields false exactly when its absolute value is below 1.  In
    particular [robust_bool(None)] is null, [robust_bool("0")] is false,
    [robust_bool("1")] is true and [robust_bool("x")] is null. *)
Theorem robust_bool_spec (entry : cell) :
  (isna entry = true -> robust_bool entry = Ok None) /\
  (isna entry = false -> non_numeric entry = true -> robust_bool entry = Ok None) /\
  (forall z, py_int entry = Ok z ->
     robust_bool entry = Ok (Some (negb (z =? 0)))) /\
  (forall q, entry = CFloat q ->
     (robust_bool entry = Ok (Some false) <-> Z.abs (Qnum q) < Z.pos (Qden q))) /\
  robust_bool CNone = Ok None /\
  robust_bool (CStr "0") = Ok (Some false) /\
  robust_bool (CStr "1") = Ok (Some true) /\
  robust_bool (CStr "x") = Ok None.
Proof.
  split; [apply robust_bool_missing |].
  split; [intros _; apply robust_bool_non_numeric |].
  split; [intros z; apply robust_bool_of_int |].
  split; [| repeat split].
  intros q ->. unfold robust_bool. simpl.
  assert (Hden : Z.pos (Qden q) <> 0) by (intros Hd; discriminate Hd).
  pose proof (Z.quot_small_iff (Qnum q) (Z.pos (Qden q)) Hden) as Hq.
  rewrite (Z.abs_eq (Z.pos (Qden q))) in Hq by apply Pos2Z.is_nonneg.
  rewrite <- Hq.
  destruct (Z.eqb_spec (Qnum q ÷ Z.pos (Qden q)) 0) as [-> | Hne]; simpl.
  - split; reflexivity || intros; reflexivity.
  - split; [intros H; discriminate H | intros H; contradiction].
Qed.

Lemma robust_bool_spec_witness :
  robust_bool (CStr " -7 ") = Ok (Some true) /\
  robust_bool (CStr "n/a") = Ok None /\
  robust_bool (CFloat (Qmake 3 4)) = Ok (Some false).
Proof.
  split; [| split].
  - apply (proj1 (proj2 (proj2 (robust_bool_spec (CStr " -7 ")))) (-7)). reflexivity.
  - apply (proj1 (proj2 (robust_bool_spec (CStr "n/a")))); reflexivity.
  - apply (proj1 (proj2 (proj2 (proj2 (robust_bool_spec (CFloat (Qmake 3 4))))))
             (Qmake 3 4) eq_refl).
    simpl. lia.
Defined.

(** ** C8: [is_smaller_or_nan] *)

Lemma is_smaller_or_nan_missing entry threshold :
  isna entry = true -> is_smaller_or_nan entry threshold = Ok (Some true).
Proof. intros H. unfold is_smaller_or_nan. rewrite H. reflexivity. Qed.

Lemma is_smaller_or_nan_non_numeric entry threshold :
  isna entry = false -> non_numeric entry = true ->
  is_smaller_or_nan entry threshold = Ok None.
Proof.
  intros Hna H. unfold is_smaller_or_nan. rewrite Hna.
  destruct (py_int_non_numeric entry H) as (e & He & Hc). rewrite He. simpl.
  destruct Hc as [-> | [_ ->]]; [reflexivity | discriminate].
Qed.

(** C8, as stated, fails: on the text "x" the call returns null, and no
    non-missing, non-numeric entry makes it raise, whatever the threshold:
    [int(entry)] raises [ValueError] before the comparison is reached, and
    the handler takes it. *)
Lemma is_smaller_or_nan_text_returns_null :
  is_smaller_or_nan (CStr "x") (CInt 5) = Ok None /\
  ~ (exists entry threshold,
        isna entry = false /\ non_numeric entry = true /\
        raises (is_smaller_or_nan entry threshold)).
Proof.
  split; [reflexivity |].
  intros (entry & threshold & Hna & Hnn & e & He).
  rewrite (is_smaller_or_nan_non_numeric _ _ Hna Hnn) in He. discriminate.
Qed.

(** C8 (amended): for every non-missing, non-numeric input (text that is
    no integer literal) and every threshold, [is_smaller_or_nan] returns
    null, the [ValueError] of [int(entry)] being handled; for every missing
    input it returns true. *)
Theorem is_smaller_or_nan_spec (entry threshold : cell) :
  (isna entry = false -> non_numeric entry = true ->
     is_smaller_or_nan entry threshold = Ok None) /\
  (isna entry = true -> is_smaller_or_nan entry threshold = Ok (Some true)).
Proof.
  split;
    [apply is_smaller_or_nan_non_numeric | apply is_smaller_or_nan_missing].
Qed.

Lemma is_smaller_or_nan_spec_witness :
  is_smaller_or_nan (CStr "12a") (CStr "y") = Ok None /\
  is_smaller_or_nan CNaN (CInt 3) = Ok (Some true).
Proof.
  split.
  - apply (proj1 (is_smaller_or_nan_spec (CStr "12a") (CStr "y"))); reflexivity.
  - apply (proj2 (is_smaller_or_nan_spec CNaN (CInt 3))); reflexivity.
Defined.

(** ** Number formatting *)

Lemma read_decimal_decimal n : read_decimal (decimal n) = Some n.
Proof.
  unfold read_decimal, decimal. rewrite NilEmpty.usu. simpl.
  f_equal. apply DecimalN.Unsigned.of_to.
Qed.

Lemma read_decimal_zeros k s : read_decimal (zeros k ++ s) = read_decimal s.
Proof.
  induction k as [| k IH]; [reflexivity |].
  unfold read_decimal in *. change (zeros (S k) ++ s) with (String "0" (zeros k ++ s)).
  simpl. destruct (NilEmpty.uint_of_string (zeros k ++ s)) as [d |];
    destruct (NilEmpty.uint_of_string s) as [d' |]; simpl in *; congruence.
Qed.

Lemma read_decimal_zero_pad w n : read_decimal (zero_pad w (decimal n)) = Some n.
Proof. unfold zero_pad. rewrite read_decimal_zeros. apply read_decimal_decimal. Qed.

Lemma read_decimal_minus r : read_decimal (String "-" r) = None.
Proof.
  unfold read_decimal. simpl. destruct (NilEmpty.uint_of_string r); reflexivity.
Qed.

Lemma length_app s1 s2 :
  String.length (s1 ++ s2) = (String.length s1 + String.length s2)%nat.
Proof. induction s1 as [| c s1 IH]; simpl; [reflexivity | rewrite IH; reflexivity]. Qed.

Lemma zero_pad_length w s : (w <= String.length (zero_pad w s))%nat.
Proof.
  unfold zero_pad. rewrite length_app.
  assert (Hz : forall k, String.length (zeros k) = k).
  { induction k as [| k IH]; simpl; [reflexivity |]. unfold zeros in IH.
    rewrite IH. reflexivity. }
  rewrite Hz. lia.
Qed.

(** What [format_04d] writes reads back as the number it was given. *)
Lemma read_04d_format_04d z : read_04d (format_04d z) = Some z.
Proof.
  unfold format_04d. destruct (Z.ltb_spec z 0) as [Hneg | Hpos].
  - change ("-" ++ zero_pad 3 (decimal (Z.to_N (- z))))
      with (String "-" (zero_pad 3 (decimal (Z.to_N (- z))))).
    simpl. rewrite read_decimal_zero_pad. simpl. f_equal. lia.
  - pose proof (read_decimal_zero_pad 4 (Z.to_N z)) as Hread.
    pose proof (zero_pad_length 4 (decimal (Z.to_N z))) as Hlen.
    destruct (zero_pad 4 (decimal (Z.to_N z))) as [| c r] eqn:Hpad;
      [simpl in Hlen; lia |].
    unfold read_04d. destruct (Ascii.eqb_spec c "-") as [-> | _].
    + rewrite read_decimal_minus in Hread. discriminate.
    + rewrite Hread. simpl. f_equal. lia.
Qed.

Lemma format_04d_inj a b : format_04d a = format_04d b -> a = b.
Proof.
  intros H. apply (f_equal read_04d) in H.
  rewrite !read_04d_format_04d in H. congruence.
Qed.

Lemma pad4_all : forallb (fun n => digits_exactly 4 (zero_pad 4 (decimal (N.of_nat n))))
                   (seq 0 (100 * 100)) = true.
Proof. vm_compute. reflexivity. Qed.

Lemma pad2_all : forallb (fun n => digits_exactly 2 (zero_pad 2 (decimal (N.of_nat n))))
                   (seq 0 100) = true.
Proof. vm_compute. reflexivity. Qed.

Lemma pad4_digits n : (n <= 9999)%N -> digits_exactly 4 (zero_pad 4 (decimal n)) = true.
Proof.
  intros Hn. pose proof pad4_all as Hall. rewrite forallb_forall in Hall.
  specialize (Hall (N.to_nat n)). rewrite N2Nat.id in Hall.
  apply Hall. apply in_seq. lia.
Qed.

Lemma pad2_digits n : (n <= 99)%N -> digits_exactly 2 (zero_pad 2 (decimal n)) = true.
Proof.
  intros Hn. pose proof pad2_all as Hall. rewrite forallb_forall in Hall.
  specialize (Hall (N.to_nat n)). rewrite N2Nat.id in Hall.
  apply Hall. apply in_seq. lia.
Qed.

Lemma iso_shape y m d :
  digits_exactly 4 y = true -> digits_exactly 2 m = true ->
  digits_exactly 2 d = true -> is_iso_date (y ++ "-" ++ m ++ "-" ++ d) = true.
Proof.
  unfold digits_exactly. intros Hy Hm Hd.
  apply andb_prop in Hy as [Ly Dy]. apply andb_prop in Hm as [Lm Dm].
  apply andb_prop in Hd as [Ld Dd].
  destruct y as [| y1 [| y2 [| y3 [| y4 [| ? ?]]]]]; try discriminate Ly.
  destruct m as [| m1 [| m2 [| ? ?]]]; try discriminate Lm.
  destruct d as [| d1 [| d2 [| ? ?]]]; try discriminate Ld.
  simpl in *. unfold is_iso_date. simpl.
  repeat match goal with
         | H : (_ && _)%bool = true |- _ => apply andb_prop in H as [? ?]
         end.
  repeat match goal with H : is_digit _ = true |- _ => rewrite H; clear H end.
  reflexivity.
Qed.

Lemma days_in_month_le y m : (days_in_month y m <= 31)%N.
Proof.
  unfold days_in_month.
  repeat match goal with
         | |- context [match ?x with _ => _ end] => destruct x
         end; lia.
Qed.

(** A valid date is written in the shape [YYYY-MM-DD]. *)
Lemma strftime_iso d : valid_date d = true -> is_iso_date (strftime d) = true.
Proof.
  unfold valid_date. intros H.
  repeat match goal with
         | H : (_ && _)%bool = true |- _ => apply andb_prop in H as [? ?]
         end.
  repeat match goal with
         | H : (_ <=? _)%N = true |- _ => apply N.leb_le in H
         end.
  pose proof (days_in_month_le (year d) (month d)).
  unfold strftime. apply iso_shape; [apply pad4_digits | apply pad2_digits ..]; lia.
Qed.

(** ** Date primitives *)

Section DateFacts.

Variable dateparse : string -> option date.

Lemma robust_date_text text :
  robust_date dateparse (CStr text) =
  match dateparse text with
  | Some d => Ok (Some (strftime d))
  | None => Ok None
  end.
Proof. unfold robust_date. simpl. destruct (dateparse text); reflexivity. Qed.

Lemma robust_date_some entry s :
  robust_date dateparse entry = Ok (Some s) ->
  exists text d, entry = CStr text /\ dateparse text = Some d /\ s = strftime d.
Proof.
  destruct entry as [| | z | q | neg | text | b]; try discriminate.
  rewrite robust_date_text. destruct (dateparse text) as [d |] eqn:Hd;
    [| discriminate].
  intros [= <-]. exists text, d. auto.
Qed.

(** [robust_date] returns, or raises the [TypeError] of the library on a
    cell that is neither missing nor text. *)
Lemma robust_date_cases entry :
  robust_date dateparse entry = Ok None \/
  (exists s, robust_date dateparse entry = Ok (Some s)) \/
  (exists e, robust_date dateparse entry = Raise e /\ exn_cls e = TypeError).
Proof.
  destruct entry as [| | z | q | neg | text | b];
    try (left; reflexivity);
    try (right; right; eexists; split; reflexivity).
  rewrite robust_date_text. destruct (dateparse text); eauto.
Qed.

(** [robust_bool] returns, or raises the [OverflowError] of [int]. *)
Lemma robust_bool_cases entry :
  (exists o, robust_bool entry = Ok o) \/
  (exists e, robust_bool entry = Raise e /\ exn_cls e = OverflowError).
Proof.
  destruct entry as [| | z | q | neg | s | b];
    try (left; eexists; reflexivity);
    try (right; eexists; split; reflexivity).
  unfold robust_bool; simpl. destruct (int_of_string s); left; eexists; reflexivity.
Qed.

Lemma safe_recurrence_date_unfold rec date o d :
  robust_bool rec = Ok o -> robust_date dateparse date = Ok d ->
  safe_recurrence_date dateparse rec date =
  match truthy o, d with
  | false, Some _ => Raise date_without_recurrence
  | true, None => Raise recurrence_without_date
  | _, _ => Ok d
  end.
Proof.
  intros Hb Hd. unfold safe_recurrence_date. rewrite Hb. simpl. rewrite Hd. simpl.
  destruct (truthy o), d; reflexivity.
Qed.

Lemma consistency_error_class e : consistency_error e -> exn_cls e = ValueError.
Proof. intros [-> | ->]; reflexivity. Qed.

(** ** C10: a null recurrence flag *)

(** C10: when [robust_bool] gives null for the recurrence flag (the flag is
    missing, or text that is no integer literal), the flag counts as false:
    [safe_recurrence_date] raises the consistency error whenever the date is
    parseable, and returns null whenever the date is missing or
    unparseable. *)
Theorem null_flag_counts_as_false (rec date : cell) :
  robust_bool rec = Ok None ->
  non_numeric rec = true /\
  flag_is rec false /\
  (forall s, robust_date dateparse date = Ok (Some s) ->
     safe_recurrence_date dateparse rec date = Raise date_without_recurrence /\
     consistency_error date_without_recurrence) /\
  (robust_date dateparse date = Ok None ->
     safe_recurrence_date dateparse rec date = Ok None).
Proof.
  intros Hnull. split; [apply robust_bool_null_iff, Hnull |].
  split; [exists None; split; [assumption | reflexivity] |].
  split.
  - intros s Hs. rewrite (safe_recurrence_date_unfold _ _ _ _ Hnull Hs).
    split; [reflexivity | left; reflexivity].
  - intros Hd. rewrite (safe_recurrence_date_unfold _ _ _ _ Hnull Hd). reflexivity.
Qed.

(** ** C1: the recurrence check *)

(** C1: for every pair of cells, with the flag read by [robust_bool] and
    the date by [robust_date]: [safe_recurrence_date] raises the
    consistency error exactly when the flag is false (or null, which counts
    as false) and the date is parseable, or the flag is true and the date
    is missing or unparseable; with a false flag the error is the one of a
    date without recurrence, with a true flag the one of a recurrence
    without date.  With a true flag and a parseable date it returns the
    date, a string of the shape [YYYY-MM-DD]; with a false flag and a
    missing date it returns null.  So (false, "2020-01-01") and (true,
    None) raise, (true, "2020-01-01") returns the date and (false, None)
    returns null.  The library hands out dates that a [datetime] can hold,
    with years of four digits. *)
Theorem safe_recurrence_date_spec (rec date : cell) :
  (forall text d, dateparse text = Some d ->
     valid_date d = true /\ four_digit_year d = true) ->
  ((exists e, safe_recurrence_date dateparse rec date = Raise e /\ consistency_error e)
   <->
   ((robust_bool rec = Ok (Some false) \/ robust_bool rec = Ok None) /\
    exists s, robust_date dateparse date = Ok (Some s)) \/
   (robust_bool rec = Ok (Some true) /\ robust_date dateparse date = Ok None)) /\
  (robust_bool rec = Ok (Some false) ->
   forall s, robust_date dateparse date = Ok (Some s) ->
     safe_recurrence_date dateparse rec date = Raise date_without_recurrence) /\
  (robust_bool rec = Ok (Some true) -> robust_date dateparse date = Ok None ->
     safe_recurrence_date dateparse rec date = Raise recurrence_without_date) /\
  (robust_bool rec = Ok (Some true) ->
   forall s, robust_date dateparse date = Ok (Some s) ->
     safe_recurrence_date dateparse rec date = Ok (Some s) /\ is_iso_date s = true) /\
  (robust_bool rec = Ok (Some false) -> robust_date dateparse date = Ok None ->
     safe_recurrence_date dateparse rec date = Ok None) /\
  (forall d, dateparse "2020-01-01" = Some d ->
     safe_recurrence_date dateparse (CBool false) (CStr "2020-01-01")
     = Raise date_without_recurrence /\
     safe_recurrence_date dateparse (CBool true) (CStr "2020-01-01")
     = Ok (Some (strftime d))) /\
  safe_recurrence_date dateparse (CBool true) CNone = Raise recurrence_without_date /\
  safe_recurrence_date dateparse (CBool false) CNone = Ok None.
Proof.
  intros Hvalid.
  assert (Hfalse : robust_bool rec = Ok (Some false) ->
            forall s, robust_date dateparse date = Ok (Some s) ->
            safe_recurrence_date dateparse rec date = Raise date_without_recurrence).
  { intros Ho s Hd. unfold safe_recurrence_date. rewrite Ho. simpl. rewrite Hd.
    reflexivity. }
  assert (Hnull : robust_bool rec = Ok None ->
            forall s, robust_date dateparse date = Ok (Some s) ->
            safe_recurrence_date dateparse rec date = Raise date_without_recurrence).
  { intros Ho s Hd. unfold safe_recurrence_date. rewrite Ho. simpl. rewrite Hd.
    reflexivity. }
  assert (Htrue : robust_bool rec = Ok (Some true) ->
            robust_date dateparse date = Ok None ->
            safe_recurrence_date dateparse rec date = Raise recurrence_without_date).
  { intros Ho Hd. unfold safe_recurrence_date. rewrite Ho. simpl. rewrite Hd.
    reflexivity. }
  split; [split |].
  - intros (e & He & Hce). apply consistency_error_class in Hce.
    unfold safe_recurrence_date in He.
    destruct (robust_bool_cases rec) as [(o & Ho) | (e' & He' & Hc')].
    2:{ rewrite He' in He. simpl in He. injection He as <-. congruence. }
    rewrite Ho in He. simpl in He.
    destruct (robust_date_cases date) as [Hd | [(s & Hd) | (e' & Hd & Hc')]];
      rewrite Hd in He; simpl in He.
    + destruct o as [[] |]; simpl in He; try discriminate He. right. auto.
    + destruct o as [[] |]; simpl in He; try discriminate He; left; eauto.
    + injection He as <-. congruence.
  - intros [[[Ho | Ho] (s & Hd)] | [Ho Hd]].
    + exists date_without_recurrence. split; [eapply Hfalse; eassumption | left; reflexivity].
    + exists date_without_recurrence. split; [eapply Hnull; eassumption | left; reflexivity].
    + exists recurrence_without_date. split; [apply Htrue; assumption | right; reflexivity].
  - split; [exact Hfalse |]. split; [exact Htrue |].
    split; [| split; [| split; [| split; reflexivity]]].
    + intros Ho s Hd. unfold safe_recurrence_date. rewrite Ho. simpl. rewrite Hd.
      split; [reflexivity |].
      destruct (robust_date_some _ _ Hd) as (text & d & _ & Hparse & ->).
      apply strftime_iso. eapply Hvalid, Hparse.
    + intros Ho Hd. unfold safe_recurrence_date. rewrite Ho. simpl. rewrite Hd.
      reflexivity.
    + intros d Hd. unfold safe_recurrence_date. simpl. rewrite !robust_date_text, Hd.
      split; reflexivity.
Qed.

End DateFacts.

Lemma parse_iso_valid text d :
  parse_iso text = Some d -> valid_date d = true /\ four_digit_year d = true.
Proof.
  unfold parse_iso. intros H. repeat case_match; try discriminate.
  injection H as <-. apply andb_prop. assumption.
Qed.

Lemma dateparser_at_valid now :
  valid_date now = true -> four_digit_year now = true ->
  forall text d, dateparser_at now text = Some d ->
                 valid_date d = true /\ four_digit_year d = true.
Proof.
  intros Hnow Hyear text d. unfold dateparser_at. case_match.
  - intros [= <-]. split; assumption.
  - apply parse_iso_valid.
Qed.

Lemma null_flag_counts_as_false_witness :
  safe_recurrence_date (dateparser_at (Date 2024 5 17)) (CStr "unknown") (CStr "2020-01-01")
  = Raise date_without_recurrence.
Proof.
  apply (proj1 (proj2 (proj2 (null_flag_counts_as_false
                                (dateparser_at (Date 2024 5 17))
                                (CStr "unknown") (CStr "2020-01-01") eq_refl)))
           "2020-01-01").
  reflexivity.
Defined.

Lemma safe_recurrence_date_spec_witness :
  safe_recurrence_date (dateparser_at (Date 2024 5 17)) (CInt 0) (CStr "2020-01-01")
  = Raise date_without_recurrence /\
  safe_recurrence_date (dateparser_at (Date 2024 5 17)) (CStr "1") (CStr "2020-01-01")
  = Ok (Some "2020-01-01") /\
  is_iso_date "2020-01-01" = true.
Proof.
  pose proof (safe_recurrence_date_spec (dateparser_at (Date 2024 5 17))
                (CInt 0) (CStr "2020-01-01")
                (dateparser_at_valid (Date 2024 5 17) eq_refl eq_refl)) as H0.
  pose proof (safe_recurrence_date_spec (dateparser_at (Date 2024 5 17))
                (CStr "1") (CStr "2020-01-01")
                (dateparser_at_valid (Date 2024 5 17) eq_refl eq_refl)) as H1.
  split.
  - apply (proj1 (proj2 H0) eq_refl "2020-01-01"). reflexivity.
  - apply (proj1 (proj2 (proj2 (proj2 H1))) eq_refl "2020-01-01"). reflexivity.
Defined.

(** ** C9: subsite and location agree *)

(** Case analysis on a key looked up in a table written as a literal. *)
Ltac table_cases :=
  repeat (rewrite list_to_map_cons, lookup_insert; case_decide; subst;
          [first [congruence | vm_compute; reflexivity] |]);
  rewrite ?list_to_map_nil, ?lookup_empty; try reflexivity.

Lemma location_of_subsite k :
  location_table !! k = icd_to_location <$> subsite_table !! k.
Proof. unfold location_table, subsite_table. table_cases. Qed.

Lemma remap_some {V} (table : gmap Z V) entry v :
  try_except (k ← py_int entry; v ← dict_getitem table k; Ok (Some v))
    [ValueError; TypeError] (Ok None) = Ok (Some v) <->
  exists k, py_int entry = Ok k /\ table !! k = Some v.
Proof.
  split.
  - destruct (py_int entry) as [k | e] eqn:Hk; simpl.
    + unfold dict_getitem. destruct (table !! k) as [v' |] eqn:Hv; simpl.
      * intros [= <-]. eauto.
      * discriminate.
    + case_bool_decide; discriminate.
  - intros (k & -> & Hv). simpl. unfold dict_getitem. rewrite Hv. reflexivity.
Qed.

(** C9: the two lookup tables have the same key set, namely
    16, 17, 18, 19, 20, 21 and 221; so [subsite_mapping] gives a non-null
    value exactly when [location_mapping] does, and whenever it does the
    location of the ICD code it gives, by [icd_to_location], is the
    location that [location_mapping] gives. *)
Theorem subsite_location_coherent (x : cell) :
  dom subsite_table = dom location_table /\
  dom subsite_table = ({[16; 17; 18; 19; 20; 21; 221]} : gset Z) /\
  ((exists s, subsite_mapping x = Ok (Some s)) <->
   (exists l, location_mapping x = Ok (Some l))) /\
  (forall s, subsite_mapping x = Ok (Some s) ->
             location_mapping x = Ok (Some (icd_to_location s))).
Proof.
  split; [| split; [| split]].
  - apply set_eq. intros k. rewrite !elem_of_dom, location_of_subsite.
    rewrite fmap_is_Some. reflexivity.
  - unfold subsite_table. rewrite dom_list_to_map_L. simpl. set_solver.
  - unfold subsite_mapping, location_mapping. split.
    + intros (s & Hs). apply remap_some in Hs as (k & Hk & Hv).
      exists (icd_to_location s). apply remap_some. exists k. split; [assumption |].
      rewrite location_of_subsite, Hv. reflexivity.
    + intros (l & Hl). apply remap_some in Hl as (k & Hk & Hv).
      rewrite location_of_subsite in Hv.
      destruct (subsite_table !! k) as [s |] eqn:Hs; [| discriminate].
      exists s. apply remap_some. eauto.
  - intros s Hs. unfold subsite_mapping, location_mapping in *.
    apply remap_some in Hs as (k & Hk & Hv). apply remap_some.
    exists k. split; [assumption |]. rewrite location_of_subsite, Hv. reflexivity.
Qed.

(** ** C2: the staged T mapping *)

Lemma py_int_digit d :
  is_digit d = true -> py_int (CStr (String d "")) = Ok (digit_value d).
Proof.
  intros H.
  destruct d as [[] [] [] [] [] [] [] []]; vm_compute in H; try discriminate H;
    reflexivity.
Qed.

(** The implementation of the pattern finds a match exactly on the texts
    that the pattern describes, and its first group is the digit. *)
Lemma match_t_pattern_iff text d :
  (exists m, match_t_pattern text = Some m /\ group1 m = d) <->
  matches_t_pattern text d.
Proof.
  split.
  - intros (m & Hm & <-). unfold match_t_pattern in Hm.
    destruct text as [| t [| d' rest]]; try discriminate.
    + destruct (Ascii.eqb_spec t "T") as [-> | Hne].
      * discriminate.
      * destruct t as [[] [] [] [] [] [] [] []]; discriminate || congruence.
    + destruct (Ascii.eqb_spec t "T") as [-> | Hne].
      * destruct (is_digit d') eqn:Hd; [| discriminate]. injection Hm as <-. simpl.
        split; [assumption |]. exists "", rest. split; [left; reflexivity | reflexivity].
      * destruct t as [[] [] [] [] [] [] [] []]; discriminate || congruence.
  - intros (Hd & suffix & rest & _ & ->). simpl. rewrite Hd.
    eexists. split; reflexivity.
Qed.

Lemma t_stage_on_match clinical text m :
  match_t_pattern text = Some m -> is_digit (group1 m) = true ->
  t_stage_mapping clinical (CStr text) = Ok (Some (digit_value (group1 m))) /\
  t_stage_prefix clinical (CStr text) = Ok "p".
Proof.
  intros Hm Hd. unfold t_stage_mapping, t_stage_prefix. simpl. rewrite Hm. simpl.
  pose proof (py_int_digit _ Hd) as Hint. simpl in Hint.
  destruct (int_of_string (String (group1 m) "")) as [z |]; [| discriminate].
  injection Hint as ->. split; reflexivity.
Qed.

Lemma t_stage_no_match clinical text :
  match_t_pattern text = None ->
  t_stage_mapping clinical (CStr text) = robust_int clinical /\
  t_stage_prefix clinical (CStr text) = Ok "c".
Proof.
  intros Hm. unfold t_stage_mapping, t_stage_prefix. simpl. rewrite Hm. simpl.
  split; reflexivity.
Qed.

Lemma t_stage_missing clinical pathological :
  isna pathological = true ->
  t_stage_mapping clinical pathological = robust_int clinical /\
  t_stage_prefix clinical pathological = Ok "c".
Proof.
  intros Hna. unfold t_stage_mapping, t_stage_prefix. rewrite Hna. split; reflexivity.
Qed.

Lemma robust_int_of_int entry z : py_int entry = Ok z -> robust_int entry = Ok (Some z).
Proof. intros H. unfold robust_int. rewrite H. reflexivity. Qed.

Lemma robust_int_non_numeric entry : non_numeric entry = true -> robust_int entry = Ok None.
Proof.
  intros H. unfold robust_int.
  destruct (py_int_non_numeric entry H) as (e & He & Hc). rewrite He. simpl.
  destruct Hc as [-> | [-> _]]; reflexivity.
Qed.

(** C2: for a clinical code and a pathological cell that is text or
    missing: when the text matches [T<digit>], optionally followed by one
    of a, b, c or NOS, [t_stage_mapping] returns that digit and
    [t_stage_prefix] returns "p"; otherwise [t_stage_mapping] returns the
    integer cast of the clinical code (its integer, or null when it is not
    numeric) and [t_stage_prefix] returns "c".  So the prefix is "p"
    exactly when the pathological text determined the stage. *)
Theorem t_stage_spec (clinical pathological : cell) :
  text_or_missing pathological = true ->
  (forall text d, pathological = CStr text -> matches_t_pattern text d ->
     t_stage_mapping clinical pathological = Ok (Some (digit_value d)) /\
     t_stage_prefix clinical pathological = Ok "p") /\
  ((forall text d, pathological = CStr text -> ~ matches_t_pattern text d) ->
     t_stage_mapping clinical pathological = robust_int clinical /\
     t_stage_prefix clinical pathological = Ok "c") /\
  (forall z, py_int clinical = Ok z -> robust_int clinical = Ok (Some z)) /\
  (non_numeric clinical = true -> robust_int clinical = Ok None) /\
  (t_stage_prefix clinical pathological = Ok "p" <->
   exists text d, pathological = CStr text /\ matches_t_pattern text d).
Proof.
  intros Htext.
  assert (Hyes : forall text d, pathological = CStr text -> matches_t_pattern text d ->
     t_stage_mapping clinical pathological = Ok (Some (digit_value d)) /\
     t_stage_prefix clinical pathological = Ok "p").
  { intros text d -> Hmatch. pose proof Hmatch as [Hd _].
    apply match_t_pattern_iff in Hmatch as (m & Hm & <-).
    apply t_stage_on_match; assumption. }
  assert (Hno : (forall text d, pathological = CStr text -> ~ matches_t_pattern text d) ->
     t_stage_mapping clinical pathological = robust_int clinical /\
     t_stage_prefix clinical pathological = Ok "c").
  { intros Hnone.
    destruct pathological as [| | z | q | neg | text | b]; try discriminate Htext;
      try (apply t_stage_missing; reflexivity).
    apply t_stage_no_match.
    destruct (match_t_pattern text) as [m |] eqn:Hm; [| reflexivity].
    exfalso. apply (Hnone text (group1 m) eq_refl).
    apply match_t_pattern_iff. eauto. }
  split; [exact Hyes |]. split; [exact Hno |].
  split; [intros z; apply robust_int_of_int |].
  split; [apply robust_int_non_numeric |].
  split.
  - intros Hp.
    destruct pathological as [| | z | q | neg | text | b]; try discriminate Htext;
      try (destruct (t_stage_missing clinical CNone eq_refl) as [_ Hc];
           rewrite Hc in Hp; discriminate Hp);
      try (destruct (t_stage_missing clinical CNaN eq_refl) as [_ Hc];
           rewrite Hc in Hp; discriminate Hp).
    destruct (match_t_pattern text) as [m |] eqn:Hm.
    + exists text, (group1 m). split; [reflexivity |].
      apply match_t_pattern_iff. eauto.
    + destruct (t_stage_no_match clinical text Hm) as [_ Hc].
      rewrite Hc in Hp. discriminate Hp.
  - intros (text & d & Heq & Hmatch). apply (Hyes text d Heq Hmatch).
Qed.

Lemma t_stage_spec_witness :
  t_stage_mapping (CInt 2) (CStr "T3NOS") = Ok (Some 3) /\
  t_stage_prefix (CInt 2) (CStr "T3NOS") = Ok "p".
Proof.
  apply (proj1 (t_stage_spec (CInt 2) (CStr "T3NOS") eq_refl) "T3NOS" "3"%char eq_refl).
  split; [reflexivity |].
  exists "NOS", "". split; [simpl; tauto | reflexivity].
Defined.

(** ** C3: the earliest date *)

Lemma leb_iff a b : String.leb a b = true <-> a = b \/ String_as_OT.lt a b.
Proof.
  unfold String.leb. destruct (String.compare a b) eqn:Hc.
  - apply String_as_OT.cmp_eq in Hc. tauto.
  - apply String_as_OT.cmp_lt in Hc. tauto.
  - split; [discriminate |]. intros [-> | Hlt].
    + assert (String.compare b b = Eq) by (apply String_as_OT.cmp_eq; reflexivity).
      congruence.
    + apply String_as_OT.cmp_lt in Hlt. unfold String_as_OT.cmp in Hlt. congruence.
Qed.

Lemma ltb_iff a b : String.ltb a b = true <-> String_as_OT.lt a b.
Proof.
  unfold String.ltb. rewrite <- String_as_OT.cmp_lt. unfold String_as_OT.cmp.
  destruct (String.compare a b); split; congruence.
Qed.

Lemma leb_refl a : String.leb a a = true.
Proof. apply leb_iff. left. reflexivity. Qed.

Lemma leb_trans a b c :
  String.leb a b = true -> String.leb b c = true -> String.leb a c = true.
Proof.
  rewrite !leb_iff. intros [-> | Hab] [-> | Hbc]; auto.
  right. eapply String_as_OT.lt_trans; eassumption.
Qed.

Lemma not_ltb_leb a b : String.ltb a b = false -> String.leb b a = true.
Proof.
  unfold String.ltb, String.leb. rewrite (String.compare_antisym b a).
  destruct (String.compare a b); simpl; congruence.
Qed.

Lemma ltb_leb a b : String.ltb a b = true -> String.leb a b = true.
Proof. intros H. apply leb_iff. right. apply ltb_iff, H. Qed.

Lemma keep_smaller_le_l m x : String.leb (keep_smaller m x) m = true.
Proof.
  unfold keep_smaller. destruct (String.ltb x m) eqn:H;
    [apply ltb_leb, H | apply leb_refl].
Qed.

Lemma keep_smaller_le_r m x : String.leb (keep_smaller m x) x = true.
Proof.
  unfold keep_smaller. destruct (String.ltb x m) eqn:H;
    [apply leb_refl | apply not_ltb_leb, H].
Qed.

Lemma fold_min_le_init rest d :
  String.leb (fold_left keep_smaller rest d) d = true.
Proof.
  revert d. induction rest as [| x rest IH]; intros d; simpl; [apply leb_refl |].
  eapply leb_trans; [apply IH | apply keep_smaller_le_l].
Qed.

Lemma fold_min_le_all rest d x :
  In x rest -> String.leb (fold_left keep_smaller rest d) x = true.
Proof.
  revert d. induction rest as [| y rest IH]; intros d; simpl; [tauto |].
  intros [-> | Hin]; [| apply IH, Hin].
  eapply leb_trans; [apply fold_min_le_init | apply keep_smaller_le_r].
Qed.

Lemma fold_min_in rest d :
  In (fold_left keep_smaller rest d) (d :: rest).
Proof.
  revert d. induction rest as [| y rest IH]; intros d; simpl; [auto |].
  destruct (IH (keep_smaller d y)) as [H | H]; [| auto].
  rewrite <- H. unfold keep_smaller. destruct (String.ltb y d); auto.
Qed.

(** [min] raises on the empty list; otherwise it returns an element of
    the list that no element precedes in string order. *)
Lemma py_min_spec dates :
  match dates with
  | [] => raises (py_min dates)
  | _ => exists m, py_min dates = Ok m /\ In m dates /\
                   forall x, In x dates -> String.leb m x = true
  end.
Proof.
  destruct dates as [| d rest]; [eexists; reflexivity |].
  exists (fold_left keep_smaller rest d). split; [reflexivity |].
  split; [apply fold_min_in |].
  intros x [<- | Hin]; [apply fold_min_le_init | apply fold_min_le_all, Hin].
Qed.

Section EarliestDate.

Variable dateparse : string -> option date.

Lemma collect_dates_spec entries dates :
  Forall (fun e => text_or_missing e = true) entries ->
  collect_dates dateparse entries dates
  = Ok (dates ++ parsed_dates dateparse entries)%list.
Proof.
  intros Hall. revert dates.
  induction Hall as [| e entries He _ IH]; intros dates; simpl.
  - rewrite app_nil_r. reflexivity.
  - destruct e as [| | z | q | neg | text | b]; try discriminate He; simpl.
    + apply IH.
    + apply IH.
    + unfold parsed_dates. simpl. rewrite robust_date_text.
      destruct (dateparse text) as [d |]; simpl.
      * rewrite IH, <- app_assoc. reflexivity.
      * apply IH.
Qed.

Lemma get_earlier_date_min entries :
  Forall (fun e => text_or_missing e = true) entries ->
  get_earlier_date dateparse entries = py_min (parsed_dates dateparse entries).
Proof.
  intros Hall. unfold get_earlier_date. rewrite (collect_dates_spec _ _ Hall).
  reflexivity.
Qed.

(** An entry that is neither text nor missing stops the loop with the
    [TypeError] of the library, which no handler takes. *)
Lemma collect_dates_type_error entries dates :
  Exists (fun e => text_or_missing e = false) entries ->
  exists e, collect_dates dateparse entries dates = Raise e /\ exn_cls e = TypeError.
Proof.
  revert dates. induction entries as [| c entries IH]; intros dates Hex.
  - inversion Hex.
  - destruct (text_or_missing c) eqn:Hc.
    + assert (Hrest : Exists (fun e => text_or_missing e = false) entries).
      { inversion Hex as [? ? Hbad | ? ? Hrest']; [congruence | exact Hrest']. }
      destruct c as [| | z | q | neg | text | b]; try discriminate Hc; simpl.
      * apply IH, Hrest.
      * apply IH, Hrest.
      * destruct (dateparse text); simpl; apply IH, Hrest.
    + destruct c as [| | z | q | neg | text | b]; try discriminate Hc; simpl;
        eexists; split; reflexivity.
Qed.

(** C3 (amended): on entries that are all text or missing,
    [get_earlier_date] returns the minimum, in string order, of the dates
    obtained from the parseable entries, the missing and unparseable ones
    being ignored, and it raises (returns no value) exactly when no entry
    is a parseable date; on ("2020-03-01", None, "2020-01-15"), with a
    library that reads these two ISO dates, it returns "2020-01-15".  An
    entry that is neither text nor missing (a number, a boolean) is not
    ignored: the call raises [TypeError], whatever the other entries. *)
Theorem get_earlier_date_spec (entries : list cell) :
  (Forall (fun e => text_or_missing e = true) entries ->
   (parsed_dates dateparse entries <> [] ->
    exists m, get_earlier_date dateparse entries = Ok m /\
              In m (parsed_dates dateparse entries) /\
              forall x, In x (parsed_dates dateparse entries) ->
                        String.leb m x = true) /\
   (raises (get_earlier_date dateparse entries) <->
    parsed_dates dateparse entries = [])) /\
  (Exists (fun e => text_or_missing e = false) entries ->
   exists e, get_earlier_date dateparse entries = Raise e /\ exn_cls e = TypeError) /\
  (dateparse "2020-03-01" = Some (Date 2020 3 1) ->
   dateparse "2020-01-15" = Some (Date 2020 1 15) ->
   get_earlier_date dateparse [CStr "2020-03-01"; CNone; CStr "2020-01-15"]
   = Ok "2020-01-15").
Proof.
  split; [| split].
  - intros Hall. rewrite (get_earlier_date_min _ Hall).
    pose proof (py_min_spec (parsed_dates dateparse entries)) as Hmin.
    split.
    + intros Hne. destruct (parsed_dates dateparse entries); [congruence | exact Hmin].
    + split.
      * intros (e & He). destruct (parsed_dates dateparse entries) as [| d l];
          [reflexivity |].
        destruct Hmin as (m & Hm & _). congruence.
      * intros Hnil. rewrite Hnil in *. exact Hmin.
  - intros Hex. destruct (collect_dates_type_error entries [] Hex) as (e & He & Hc).
    exists e. unfold get_earlier_date. rewrite He. split; [reflexivity | exact Hc].
  - intros H1 H2. unfold get_earlier_date. simpl. rewrite H1, H2. reflexivity.
Qed.

End EarliestDate.

(** C3, as stated, fails: the number 5 is not ignored.  One entry is a
    parseable date, and the call raises. *)
Lemma get_earlier_date_number_entry_raises :
  parsed_dates (dateparser_at (Date 2024 5 17)) [CStr "2020-01-01"; CInt 5]
  = ["2020-01-01"] /\
  get_earlier_date (dateparser_at (Date 2024 5 17)) [CStr "2020-01-01"; CInt 5]
  = Raise (Exn TypeError "Input type must be str").
Proof. split; vm_compute; reflexivity. Qed.

Lemma get_earlier_date_spec_witness :
  (exists m,
     get_earlier_date (dateparser_at (Date 2024 5 17))
       [CStr "2021-07-30"; CNaN; CStr "when?"; CStr "2021-07-04"] = Ok m /\
     In m ["2021-07-30"; "2021-07-04"] /\
     forall x, In x ["2021-07-30"; "2021-07-04"] -> String.leb m x = true) /\
  (exists e,
     get_earlier_date (dateparser_at (Date 2024 5 17))
       [CStr "2021-07-30"; CBool true] = Raise e /\ exn_cls e = TypeError).
Proof.
  split.
  - apply (proj1 (proj1 (get_earlier_date_spec (dateparser_at (Date 2024 5 17))
                    [CStr "2021-07-30"; CNaN; CStr "when?"; CStr "2021-07-04"])
                    ltac:(repeat constructor))).
    discriminate.
  - apply (proj1 (proj2 (get_earlier_date_spec (dateparser_at (Date 2024 5 17))
                    [CStr "2021-07-30"; CBool true]))).
    apply Exists_cons_tl, Exists_cons_hd. reflexivity.
Defined.

(** ** C6: the ID counter *)

Lemma id_calls_map n c p :
  id_calls n (IdCounter c p)
  = map (fun k => p ++ format_04d (c + Z.of_nat k)) (seq 0 n).
Proof.
  revert c. induction n as [| n IH]; intros c; [reflexivity |].
  cbn [id_calls id_counter prefix counter seq map]. rewrite IH.
  rewrite Z.add_0_r. f_equal. rewrite <- seq_shift, map_map.
  apply map_ext. intros k. do 2 f_equal. lia.
Qed.

Lemma id_of_counter_inj p c :
  Inj (=) (=) (fun k : nat => p ++ format_04d (c + Z.of_nat k)).
Proof.
  intros i j H. apply (inj (String.app p)) in H. apply format_04d_inj in H. lia.
Qed.

Lemma all_digits_app a b : all_digits (a ++ b) = (all_digits a && all_digits b)%bool.
Proof.
  unfold all_digits. induction a as [| c a IH]; simpl; [reflexivity |].
  rewrite IH. apply andb_assoc.
Qed.

Lemma all_digits_zeros k : all_digits (zeros k) = true.
Proof. induction k as [| k IH]; [reflexivity | exact IH]. Qed.

Lemma all_digits_decimal n : all_digits (decimal n) = true.
Proof.
  unfold decimal. generalize (N.to_uint n). intros d.
  induction d; simpl; auto.
Qed.

Lemma format_04d_length z : (4 <= String.length (format_04d z))%nat.
Proof.
  unfold format_04d. destruct (z <? 0).
  - change ("-" ++ ?s) with (String "-" s). simpl.
    pose proof (zero_pad_length 3 (decimal (Z.to_N (- z)))). lia.
  - apply zero_pad_length.
Qed.

(** C6, as stated, fails: with start value -1 the first ID is the prefix
    followed by "-001", three digits after the sign, not the value padded
    to four digits. *)
Lemma id_counter_negative_start :
  fst (id_counter (create_id_counter (-1) "UMCGr")) = "UMCGr-001" /\
  "UMCGr" ++ padded_to_four_digits (-1) = "UMCGr-0001" /\
  fst (id_counter (create_id_counter (-1) "UMCGr"))
  <> "UMCGr" ++ padded_to_four_digits (-1).
Proof. split; [reflexivity | split; [reflexivity | discriminate]]. Qed.

(** C6 (amended): for every start value [s] and prefix [p], the n-th call
    (n >= 1) of the closure made by [create_id_counter(s, p)] returns [p]
    followed by the decimal value [s+n-1] padded with zeros to at least
    four characters, a minus sign counting as one of them (so to at least
    four digits when [s+n-1] is not negative); hence the IDs of one run are
    pairwise distinct and the counter values they embed strictly increase
    in call order. *)
Theorem id_counter_spec (s : Z) (p : string) (calls : nat) :
  let ids := id_calls calls (create_id_counter s p) in
  length ids = calls /\
  (forall n, (1 <= n <= calls)%nat ->
     ids !! (n - 1)%nat = Some (p ++ format_04d (s + Z.of_nat n - 1))) /\
  (forall z, read_04d (format_04d z) = Some z /\
             (4 <= String.length (format_04d z))%nat /\
             (0 <= z -> all_digits (format_04d z) = true /\
                        format_04d z = padded_to_four_digits z)) /\
  NoDup ids /\
  (forall i j vi vj, (i < j)%nat ->
     ids !! i = Some (p ++ format_04d vi) ->
     ids !! j = Some (p ++ format_04d vj) -> vi < vj).
Proof.
  cbv zeta. unfold create_id_counter. rewrite id_calls_map.
  split; [rewrite length_map, length_seq; reflexivity |].
  split.
  { intros n Hn. rewrite list_lookup_fmap, lookup_seq_lt by lia. simpl.
    do 3 f_equal. lia. }
  split.
  { intros z. split; [apply read_04d_format_04d |].
    split; [apply format_04d_length |].
    intros Hz. unfold format_04d, padded_to_four_digits.
    destruct (Z.ltb_spec z 0) as [Hneg | _]; [lia |].
    replace (Z.abs_N z) with (Z.to_N z) by lia. split; [| reflexivity].
    unfold zero_pad. rewrite all_digits_app, all_digits_zeros, all_digits_decimal.
    reflexivity. }
  split.
  { apply (@NoDup_fmap_2 _ _ _ (id_of_counter_inj p s)), NoDup_seq. }
  intros i j vi vj Hij Hi Hj.
  rewrite list_lookup_fmap in Hi, Hj.
  destruct (seq 0 calls !! i) as [i' |] eqn:Hsi; [| discriminate].
  destruct (seq 0 calls !! j) as [j' |] eqn:Hsj; [| discriminate].
  apply lookup_seq in Hsi as [-> _]. apply lookup_seq in Hsj as [-> _].
  simpl in Hi, Hj. injection Hi as Hi. injection Hj as Hj.
  apply (inj (String.app p)) in Hi, Hj.
  apply format_04d_inj in Hi, Hj. lia.
Qed.

Lemma id_counter_spec_witness :
  id_calls 3 (create_id_counter 1 "UMCGr") !! 1%nat = Some "UMCGr0002" /\
  all_digits (format_04d 12345) = true.
Proof.
  split.
  - apply (proj1 (proj2 (id_counter_spec 1 "UMCGr" 3)) 2%nat). lia.
  - apply (proj2 (proj2 (proj1 (proj2 (proj2 (id_counter_spec 1 "UMCGr" 3))) 12345))).
    lia.
Defined.

(** ** The date primitives and the clock *)

(** The library resolves relative text against the clock, and so do the
    date primitives: the same cell gives another date on another day. *)
Lemma robust_date_follows_the_clock :
  robust_date (dateparser_at (Date 2024 5 17)) (CStr "today") = Ok (Some "2024-05-17") /\
  robust_date (dateparser_at (Date 2024 5 18)) (CStr "today") = Ok (Some "2024-05-18") /\
  get_earlier_date (dateparser_at (Date 2024 5 17)) [CStr "today"] = Ok "2024-05-17" /\
  get_earlier_date (dateparser_at (Date 2024 5 18)) [CStr "today"] = Ok "2024-05-18".
Proof. repeat split; vm_compute; reflexivity. Qed.

(* ================================================================= *)
(** * Further properties of the sources *)


(** ** The outcome classifiers *)

(** What [robust_int] does, by the kind of cell. *)
Lemma robust_int_cases entry :
  (exists z, py_int entry = Ok z /\ robust_int entry = Ok (Some z)) \/
  (non_numeric entry = true /\ robust_int entry = Ok None) \/
  (exists neg e, entry = CInf neg /\ robust_int entry = Raise e /\
                 exn_cls e = OverflowError).
Proof.
  destruct entry as [| | z | q | neg | s | b];
    try (left; eexists; split; reflexivity);
    try (right; left; split; reflexivity).
  - right; right. eexists _, _. repeat split.
  - unfold robust_int, non_numeric. simpl. destruct (int_of_string s) as [z |].
    + left. eexists; split; reflexivity.
    + right; left. split; reflexivity.
Qed.

Ltac crush_step :=
  repeat split; intros;
  repeat match goal with
         | H : ex _ |- _ => destruct H
         | H : _ /\ _ |- _ => destruct H
         | H : _ \/ _ |- _ => destruct H
         end;
  simplify_eq;
  first [ solve [eauto 6] | discriminate | lia | congruence
        | solve [exfalso; eauto 6] ].

Ltac crush := solve [crush_step].

Ltac by_robust_int entry :=
  destruct (robust_int_cases entry)
    as [(z & Hz & Hr) | [(Hn & Hr) | (neg & e & -> & Hr & Hcls)]];
  unfold is_dead, cause_of_death, had_complication;
  rewrite ?Hr; simpl.

(** X1: [cause_of_death] names a cause exactly when [is_dead] answers
    true: the codes 3, 4 and 5 give the causes other, tumor and
    complication and make [is_dead] true, no other input gives a cause, and
    a patient reported alive has no cause. *)
Theorem cause_of_death_iff_dead (entry : cell) :
  ((exists c, cause_of_death entry = Ok (Some c)) <-> is_dead entry = Ok (Some true)) /\
  (py_int entry = Ok 3 ->
     cause_of_death entry = Ok (Some "other") /\ is_dead entry = Ok (Some true)) /\
  (py_int entry = Ok 4 ->
     cause_of_death entry = Ok (Some "tumor") /\ is_dead entry = Ok (Some true)) /\
  (py_int entry = Ok 5 ->
     cause_of_death entry = Ok (Some "complication") /\
     is_dead entry = Ok (Some true)) /\
  (forall c, cause_of_death entry = Ok (Some c) ->
     (py_int entry = Ok 3 /\ c = "other") \/
     (py_int entry = Ok 4 /\ c = "tumor") \/
     (py_int entry = Ok 5 /\ c = "complication")) /\
  (is_dead entry = Ok (Some false) -> cause_of_death entry = Ok None) /\
  cause_of_death (CInt 3) = Ok (Some "other") /\
  cause_of_death (CStr "4") = Ok (Some "tumor") /\
  cause_of_death (CFloat (Qmake 5 1)) = Ok (Some "complication") /\
  is_dead (CInt 5) = Ok (Some true) /\
  is_dead (CInt 1) = Ok (Some false).
Proof.
  assert (Hcode : forall k, py_int entry = Ok k -> robust_int entry = Ok (Some k)).
  { intros k Hk.
    destruct (robust_int_cases entry)
      as [(z & Hz & Hr) | [(Hn & Hr) | (neg & e & -> & Hr & Hcls)]].
    - congruence.
    - destruct (py_int_non_numeric entry Hn) as (e & He & _). congruence.
    - discriminate Hk. }
  split; [| split; [| split; [| split; [| split; [| split; [| repeat split]]]]]].
  2-4: intros Hk; unfold cause_of_death, is_dead; rewrite (Hcode _ Hk);
       split; reflexivity.
  all: by_robust_int entry.
  all: try (destruct (Z.eqb_spec z 3) as [-> | H3]; simpl; [crush |];
            destruct (Z.eqb_spec z 4) as [-> | H4]; simpl; [crush |];
            destruct (Z.eqb_spec z 5) as [-> | H5]; simpl; [crush |]).
  all: crush.
Qed.

(** X2: [had_complication] answers true exactly when [cause_of_death]
    says complication, and then [is_dead] answers true; the two boolean
    classifiers are null together. *)
Theorem had_complication_coherent (entry : cell) :
  (had_complication entry = Ok (Some true) <->
   cause_of_death entry = Ok (Some "complication")) /\
  (had_complication entry = Ok (Some true) -> is_dead entry = Ok (Some true)) /\
  (had_complication entry = Ok None <-> is_dead entry = Ok None).
Proof.
  by_robust_int entry.
  - destruct (Z.eqb_spec z 3) as [-> | H3]; simpl; [crush |].
    destruct (Z.eqb_spec z 4) as [-> | H4]; simpl; [crush |].
    destruct (Z.eqb_spec z 5) as [-> | H5]; simpl; [crush |].
    crush.
  - crush.
  - crush.
Qed.

(** X3: the classifiers never mistake bad input for an outcome: [is_dead]
    returns null exactly on non-numeric input, and it raises (the
    [OverflowError] of [int]) exactly on an infinite float; a null cause of
    death, in contrast, is also the answer for every numeric code other
    than 3, 4 and 5. *)
Theorem outcome_null_and_errors (entry : cell) :
  (is_dead entry = Ok None <-> non_numeric entry = true) /\
  (raises (is_dead entry) <-> exists neg, entry = CInf neg) /\
  (raises (cause_of_death entry) <-> exists neg, entry = CInf neg) /\
  (cause_of_death entry = Ok None <->
   non_numeric entry = true \/
   exists z, py_int entry = Ok z /\ z <> 3 /\ z <> 4 /\ z <> 5).
Proof.
  assert (Hnn : forall z, py_int entry = Ok z -> non_numeric entry = true -> False).
  { intros z Hz Hn. destruct (py_int_non_numeric entry Hn) as (e & He & _).
    congruence. }
  assert (Hinf : forall z, py_int entry = Ok z -> (exists neg, entry = CInf neg) -> False).
  { intros z Hz (neg & ->). discriminate. }
  unfold raises. by_robust_int entry.
  - destruct (Z.eqb_spec z 3) as [-> | H3]; simpl; [crush |].
    destruct (Z.eqb_spec z 4) as [-> | H4]; simpl; [crush |].
    destruct (Z.eqb_spec z 5) as [-> | H5]; simpl; [crush |].
    crush.
  - assert (Hno : (exists neg, entry = CInf neg) -> False).
    { intros (neg & ->). discriminate. }
    crush.
  - crush.
Qed.

(** X4: [robust_bool] is the truth value of what [robust_int] returns:
    null where [robust_int] is null, false for 0, true for any other
    integer, and the same exception where [robust_int] raises. *)
Theorem robust_bool_of_robust_int (entry : cell) :
  robust_bool entry
  = (fun o : option Z => (fun z => negb (z =? 0)) <$> o) <$> robust_int entry.
Proof.
  destruct (robust_int_cases entry)
    as [(z & Hz & Hr) | [(Hn & Hr) | (neg & e & -> & Hr & Hc)]].
  - rewrite Hr, (robust_bool_of_int _ _ Hz). reflexivity.
  - rewrite Hr, (robust_bool_non_numeric _ Hn). reflexivity.
  - reflexivity.
Qed.

(** ** The leaves written as lambdas *)

(** X6: the leaf [t_stage] of the radiotherapy map turns a number equal
    to 8 into stage 0 and leaves every other input to [robust_int]; so the
    text "8" is not taken for the code 8, and the stage 8 still comes out,
    exactly for text that reads 8 and for a float strictly between 8 and
    9. *)
Theorem t_stage_leaf_spec (x : cell) :
  (py_eq_int x 8 = true -> t_stage_leaf x = Ok (Some 0)) /\
  (py_eq_int x 8 = false -> t_stage_leaf x = robust_int x) /\
  (t_stage_leaf x = Ok (Some 8) <->
   (exists s, x = CStr s /\ int_of_string s = Some 8) \/
   (exists q, x = CFloat q /\ ~ Qeq q (inject_Z 8) /\
              Z.quot (Qnum q) (Z.pos (Qden q)) = 8)) /\
  t_stage_leaf (CStr "8") = Ok (Some 8) /\
  t_stage_leaf (CInt 8) = Ok (Some 0).
Proof.
  unfold t_stage_leaf.
  split; [intros ->; reflexivity |]. split; [intros ->; reflexivity |].
  split; [| split; reflexivity].
  destruct x as [| | z | q | neg | s | b]; simpl;
    try (split; [discriminate | intros [(s' & H & _) | (q' & H & _)]; discriminate]).
  - destruct (Z.eqb_spec z 8) as [-> | Hne].
    + split; [discriminate | intros [(s' & H & _) | (q' & H & _)]; discriminate].
    + unfold robust_int; simpl. split; [intros [= ->]; contradiction |].
      intros [(s' & H & _) | (q' & H & _)]; discriminate.
  - destruct (Qeq_bool q (inject_Z 8)) eqn:Hq.
    + apply Qeq_bool_iff in Hq. split; [discriminate |].
      intros [(s' & H & _) | (q' & [= <-] & Hne & _)]; [discriminate | contradiction].
    + unfold robust_int; simpl. split.
      * intros [= Hz]. right. exists q. repeat split; [| assumption].
        intros Heq. apply Qeq_bool_iff in Heq. congruence.
      * intros [(s' & H & _) | (q' & [= <-] & _ & ->)]; [discriminate | reflexivity].
  - unfold robust_int; simpl. split.
    + destruct (int_of_string s) as [z |] eqn:Hs; simpl; [| discriminate].
      intros [= ->]. left. eauto.
    + intros [(s' & [= <-] & ->) | (q' & H & _)]; [reflexivity | discriminate].
  - destruct b; simpl; (split; [discriminate |]);
      intros [(s' & H & _) | (q' & H & _)]; discriminate.
Qed.

(** ** The surgery variants of the N and M remaps *)

Lemma match_letter_digit_iff letter text d :
  match_letter_digit letter text = Some d <->
  is_digit d = true /\ exists rest, text = String letter (String d rest).
Proof.
  unfold match_letter_digit. destruct text as [| c [| d' rest]];
    try (split; [discriminate | intros (_ & rest' & H); discriminate]).
  destruct (Ascii.eqb_spec c letter) as [-> | Hne]; simpl.
  - destruct (is_digit d') eqn:Hd.
    + split; [intros [= <-]; eauto | intros (_ & rest' & [= <- _]); reflexivity].
    + split; [discriminate | intros (Hd' & rest' & [= <- _]); congruence].
  - split; [discriminate | intros (_ & rest' & [= -> _ _]); contradiction].
Qed.

Lemma digit_value_range d : is_digit d = true -> 0 <= digit_value d <= 9.
Proof.
  intros H. destruct d as [[] [] [] [] [] [] [] []]; vm_compute in H;
    try discriminate H; vm_compute; split; discriminate.
Qed.

Lemma n_stage_range entry v : n_stage_mapping entry = Ok (Some v) -> 0 <= v <= 3.
Proof.
  unfold n_stage_mapping. intros H. apply remap_some in H as (k & _ & Hv).
  revert Hv. unfold n_stage_table.
  repeat (rewrite list_to_map_cons, lookup_insert; case_decide; subst;
          [intros [= <-]; lia |]).
  rewrite list_to_map_nil, lookup_empty. discriminate.
Qed.

Lemma m_stage_range entry v : m_stage_mapping entry = Ok (Some v) -> -1 <= v <= 1.
Proof.
  unfold m_stage_mapping. intros H. apply remap_some in H as (k & _ & Hv).
  revert Hv. unfold m_stage_table.
  repeat (rewrite list_to_map_cons, lookup_insert; case_decide; subst;
          [intros [= <-]; lia |]).
  rewrite list_to_map_nil, lookup_empty. discriminate.
Qed.

(** X7: in the surgery map a pathological text that starts with [N] and a
    digit decides the N stage: the digit is returned as it is, whatever
    the clinical code, even one on which the clinical remap would raise.
    Otherwise (pathological missing, or text without such a start) the
    result is that of the clinical remap of the radiotherapy map, which
    lies between 0 and 3. *)
Theorem surgery_n_stage_spec (clinical pathological : cell) :
  text_or_missing pathological = true ->
  (forall text d, pathological = CStr text ->
     match_letter_digit "N" text = Some d ->
     Surgery.n_stage_mapping clinical pathological = Ok (Some (digit_value d)) /\
     0 <= digit_value d <= 9) /\
  ((forall text, pathological = CStr text -> match_letter_digit "N" text = None) ->
     Surgery.n_stage_mapping clinical pathological = n_stage_mapping clinical /\
     forall v, Surgery.n_stage_mapping clinical pathological = Ok (Some v) ->
               0 <= v <= 3).
Proof.
  intros Htext. split.
  - intros text d -> Hm. pose proof (proj1 (match_letter_digit_iff _ _ _) Hm) as [Hd _].
    split; [| apply digit_value_range, Hd].
    unfold Surgery.n_stage_mapping. simpl. rewrite Hm. simpl.
    pose proof (py_int_digit _ Hd) as Hint. simpl in Hint.
    destruct (int_of_string (String d "")) as [z |]; [| discriminate].
    injection Hint as ->. reflexivity.
  - intros Hnone.
    assert (Heq : Surgery.n_stage_mapping clinical pathological
                  = n_stage_mapping clinical).
    { destruct pathological as [| | z | q | neg | text | b];
        try discriminate Htext; try reflexivity.
      unfold Surgery.n_stage_mapping. simpl. rewrite (Hnone text eq_refl).
      reflexivity. }
    split; [exact Heq |]. rewrite Heq. apply n_stage_range.
Qed.

Lemma surgery_n_stage_spec_witness :
  Surgery.n_stage_mapping (CInf false) (CStr "N3b") = Ok (Some 3) /\ 0 <= 3 <= 9.
Proof.
  apply (proj1 (surgery_n_stage_spec (CInf false) (CStr "N3b") eq_refl)
           "N3b" "3"%char eq_refl eq_refl).
Defined.

(** X8: in the surgery map a pathological text that starts with [M] and a
    digit decides the M stage: the digit is returned as it is, whatever
    the clinical code.  Otherwise the result is that of the clinical remap
    of the radiotherapy map, which is -1, 0 or 1. *)
Theorem surgery_m_stage_spec (clinical pathological : cell) :
  text_or_missing pathological = true ->
  (forall text d, pathological = CStr text ->
     match_letter_digit "M" text = Some d ->
     Surgery.m_stage_mapping clinical pathological = Ok (Some (digit_value d)) /\
     0 <= digit_value d <= 9) /\
  ((forall text, pathological = CStr text -> match_letter_digit "M" text = None) ->
     Surgery.m_stage_mapping clinical pathological = m_stage_mapping clinical /\
     forall v, Surgery.m_stage_mapping clinical pathological = Ok (Some v) ->
               -1 <= v <= 1).
Proof.
  intros Htext. split.
  - intros text d -> Hm. pose proof (proj1 (match_letter_digit_iff _ _ _) Hm) as [Hd _].
    split; [| apply digit_value_range, Hd].
    unfold Surgery.m_stage_mapping. simpl. rewrite Hm. simpl.
    pose proof (py_int_digit _ Hd) as Hint. simpl in Hint.
    destruct (int_of_string (String d "")) as [z |]; [| discriminate].
    injection Hint as ->. reflexivity.
  - intros Hnone.
    assert (Heq : Surgery.m_stage_mapping clinical pathological
                  = m_stage_mapping clinical).
    { destruct pathological as [| | z | q | neg | text | b];
        try discriminate Htext; try reflexivity.
      unfold Surgery.m_stage_mapping. simpl. rewrite (Hnone text eq_refl).
      reflexivity. }
    split; [exact Heq |]. rewrite Heq. apply m_stage_range.
Qed.

Lemma surgery_m_stage_spec_witness :
  Surgery.m_stage_mapping (CInt 9) (CStr "Mx") = m_stage_mapping (CInt 9) /\
  forall v, Surgery.m_stage_mapping (CInt 9) (CStr "Mx") = Ok (Some v) -> -1 <= v <= 1.
Proof.
  apply (proj2 (surgery_m_stage_spec (CInt 9) (CStr "Mx") eq_refl)).
  intros text [= <-]. reflexivity.
Defined.

(** X9: [had_neck_dissection] gives null exactly for a missing entry; for
    text it tells whether the library reads a date in it; on a number or a
    boolean it raises the [TypeError] of the library instead of answering. *)
Theorem had_neck_dissection_spec (dateparse : string -> option date) (entry : cell) :
  (Surgery.had_neck_dissection dateparse entry = Ok None <-> isna entry = true) /\
  (forall text, entry = CStr text ->
     Surgery.had_neck_dissection dateparse entry
     = Ok (Some (bool_decide (is_Some (dateparse text))))) /\
  ((exists e, Surgery.had_neck_dissection dateparse entry = Raise e /\
              exn_cls e = TypeError) <->
   text_or_missing entry = false).
Proof.
  unfold Surgery.had_neck_dissection.
  destruct entry as [| | z | q | neg | text | b]; simpl;
    try (split; [split; [reflexivity | reflexivity] |];
         split; [discriminate |];
         split; [intros (e & He & _); discriminate | discriminate]);
    try (split; [split; discriminate |];
         split; [discriminate |];
         split; [reflexivity | intros _; eexists; split; reflexivity]).
  rewrite robust_date_text.
  split; [split; [destruct (dateparse text); discriminate | discriminate] |].
  split; [intros text' [= <-]; destruct (dateparse text); reflexivity |].
  split; [| discriminate]. intros (e & He & _).
  destruct (dateparse text); discriminate.
Qed.

(** ** Patient IDs of [assign_ids.py] *)

Lemma read_decimal_zero r : read_decimal (String "0" r) = read_decimal r.
Proof. apply (read_decimal_zeros 1 r). Qed.

Lemma read_decimal_drop_zeros s : read_decimal (drop_zeros s) = read_decimal s.
Proof.
  induction s as [| a s IH]; [reflexivity |].
  simpl. destruct (Ascii.eqb_spec a "0") as [-> | _]; [| reflexivity].
  rewrite IH, read_decimal_zero. reflexivity.
Qed.

Lemma all_digits_drop_zeros s : all_digits s = true -> all_digits (drop_zeros s) = true.
Proof.
  induction s as [| a s IH]; [reflexivity |].
  intros H. simpl. destruct (Ascii.eqb a "0"); [| exact H].
  apply IH. unfold all_digits in *. simpl in H. apply andb_prop in H as [_ H]. exact H.
Qed.

Lemma drop_zeros_app_minus k r :
  drop_zeros (zeros k ++ String "-" r) = String "-" r.
Proof. induction k as [| k IH]; [reflexivity | exact IH]. Qed.

(** What [rjust] wrote around [str(i)] reads back as [i]. *)
Lemma read_padded_py_str w i : read_padded (zero_pad w (py_str i)) = Some i.
Proof.
  unfold py_str. destruct (Z.ltb_spec i 0) as [Hneg | Hpos].
  - change ("-" ++ ?s) with (String "-" s). unfold zero_pad, read_padded.
    rewrite drop_zeros_app_minus. simpl. rewrite read_decimal_decimal. simpl.
    f_equal. lia.
  - unfold read_padded.
    pose proof (read_decimal_zero_pad w (Z.to_N i)) as Hread.
    rewrite <- read_decimal_drop_zeros in Hread.
    assert (Hdig : all_digits (drop_zeros (zero_pad w (decimal (Z.to_N i)))) = true).
    { apply all_digits_drop_zeros. unfold zero_pad.
      rewrite all_digits_app, all_digits_zeros, all_digits_decimal. reflexivity. }
    destruct (drop_zeros (zero_pad w (decimal (Z.to_N i)))) as [| a r].
    + injection Hread as Hread. f_equal. lia.
    + destruct (Ascii.eqb_spec a "-") as [-> | _]; [discriminate Hdig |].
      rewrite Hread. simpl. f_equal. lia.
Qed.

Lemma py_range_lookup start num k :
  0 <= k < num -> py_range start num !! Z.to_nat k = Some (start + k).
Proof.
  intros Hk. unfold py_range. rewrite list_lookup_fmap, lookup_seq_lt by lia.
  simpl. f_equal. lia.
Qed.

Section GenerateIdsFacts.

Variable num_width_of : Z -> nat.

Lemma id_of_number_inj base w :
  Inj (=) (=) (fun i : Z => base ++ "-" ++ zero_pad w (py_str i)).
Proof.
  intros i j H. apply (inj (String.app base)) in H.
  change ("-" ++ ?s) with (String "-" s) in H. injection H as H.
  apply (f_equal read_padded) in H. rewrite !read_padded_py_str in H. congruence.
Qed.

(** X10: [generate_ids] fails on an empty dataset: for [num <= 0] the
    logarithm raises [ValueError].  For [num >= 1], whatever width the
    float computation gives, it returns [num] IDs, pairwise distinct; the
    k-th one is the base, a hyphen and a number part at least as wide as
    the width that reads back as [start + k]: padding never shortens or
    changes a number. *)
Theorem generate_ids_spec (year institution suffix : string) (num start : Z) :
  (num <= 0 ->
   exists e, generate_ids num_width_of year institution num start suffix = Raise e /\
             exn_cls e = ValueError) /\
  (1 <= num ->
   exists ids,
     generate_ids num_width_of year institution num start suffix = Ok ids /\
     length ids = Z.to_nat num /\
     NoDup ids /\
     forall k, 0 <= k < num ->
       exists number,
         ids !! Z.to_nat k
         = Some ((year ++ "-" ++ upper institution ++ suffix) ++ "-" ++ number) /\
         read_padded number = Some (start + k) /\
         (num_width_of num <= String.length number)%nat).
Proof.
  unfold generate_ids. split.
  - intros Hnum. destruct (Z.leb_spec num 0) as [_ | Hgt]; [| lia].
    eexists. split; reflexivity.
  - intros Hnum. destruct (Z.leb_spec num 0) as [Hle | _]; [lia |].
    eexists. split; [reflexivity |].
    split; [unfold py_range; rewrite !length_map, length_seq; reflexivity |].
    split.
    + apply (@NoDup_fmap_2 _ _ _ (id_of_number_inj _ _)).
      assert (Hinj : Inj (=) (=) (fun k : nat => start + Z.of_nat k))
        by (intros a b Hab; lia).
      unfold py_range. apply (@NoDup_fmap_2 _ _ _ Hinj), NoDup_seq.
    + intros k Hk. eexists.
      rewrite list_lookup_fmap, (py_range_lookup _ _ _ Hk). simpl.
      split; [reflexivity |]. split; [apply read_padded_py_str | apply zero_pad_length].
Qed.

End GenerateIdsFacts.

(** ** Dataset names of [assign_ids.py] *)

Lemma span_spec p l run rest :
  span p l = (run, rest) ->
  l = (run ++ rest)%list /\ forallb p run = true /\
  stops_at p (string_of_list_ascii rest).
Proof.
  revert run rest. induction l as [| a l IH]; intros run rest; simpl.
  - intros [= <- <-]. repeat split.
  - destruct (p a) eqn:Hp.
    + destruct (span p l) as [run' rest']. intros [= <- <-].
      destruct (IH run' rest' eq_refl) as (-> & Hrun & Hstop).
      simpl. rewrite Hp. auto.
    + intros [= <- <-]. simpl. auto.
Qed.

Lemma span_app p run rest :
  forallb p run = true -> stops_at p (string_of_list_ascii rest) ->
  span p (run ++ rest) = (run, rest).
Proof.
  intros Hrun Hstop. induction run as [| a run IH]; simpl in *.
  - destruct rest as [| b rest]; [reflexivity |]. simpl in Hstop.
    cbn [app span]. rewrite Hstop. reflexivity.
  - apply andb_prop in Hrun as [Ha Hrun]. rewrite Ha, (IH Hrun). reflexivity.
Qed.

Lemma string_of_list_ascii_app l1 l2 :
  string_of_list_ascii (l1 ++ l2) = string_of_list_ascii l1 ++ string_of_list_ascii l2.
Proof. induction l1 as [| a l1 IH]; simpl; [reflexivity | rewrite IH; reflexivity]. Qed.

Lemma list_ascii_of_string_app s1 s2 :
  list_ascii_of_string (s1 ++ s2)
  = (list_ascii_of_string s1 ++ list_ascii_of_string s2)%list.
Proof. induction s1 as [| a s1 IH]; simpl; [reflexivity | rewrite IH; reflexivity]. Qed.

Lemma dataset_name_match_sound name year institution rest :
  dataset_name_match name = Some (year, institution, rest) ->
  name_parts_ok year institution rest /\
  exists tail,
    name = year ++ "-" ++ institution ++ "-" ++ rest ++ tail /\
    stops_at is_lower_or_hyphen tail.
Proof.
  unfold dataset_name_match. intros H.
  rewrite <- (string_of_list_ascii_of_string name).
  destruct (list_ascii_of_string name) as [| y1 [| y2 [| y3 [| y4 [| sep l]]]]];
    try discriminate H.
  destruct (is_nonzero_digit y1 && forallb is_digit [y2; y3; y4]
            && Ascii.eqb sep "-")%bool eqn:Hhead; [| discriminate H].
  apply andb_prop in Hhead as [Hhead Hsep]. apply andb_prop in Hhead as [Hy1 Hy].
  apply Ascii.eqb_eq in Hsep as ->.
  destruct (span is_lower l) as [inst after] eqn:Hspan1.
  destruct inst as [| i1 inst]; [discriminate H |].
  destruct after as [| sep' l']; [discriminate H |].
  destruct (Ascii.eqb_spec sep' "-") as [-> | _]; [| discriminate H].
  destruct (span is_lower_or_hyphen l') as [r tail] eqn:Hspan2.
  destruct r as [| r1 r]; [discriminate H |].
  injection H as <- <- <-.
  apply span_spec in Hspan1 as (-> & Hinst & _).
  apply span_spec in Hspan2 as (-> & Hrest & Hstop).
  split.
  - split; [exists y1, (string_of_list_ascii [y2; y3; y4]); repeat split; assumption |].
    change (String i1 (string_of_list_ascii inst))
      with (string_of_list_ascii (i1 :: inst)).
    change (String r1 (string_of_list_ascii r))
      with (string_of_list_ascii (r1 :: r)).
    rewrite !list_ascii_of_string_of_list_ascii.
    repeat split; try discriminate; assumption.
  - exists (string_of_list_ascii tail). split; [| exact Hstop].
    simpl. do 5 f_equal. rewrite string_of_list_ascii_app. simpl. do 2 f_equal.
    rewrite string_of_list_ascii_app. reflexivity.
Qed.

Lemma dataset_name_match_complete year institution rest tail :
  name_parts_ok year institution rest ->
  stops_at is_lower_or_hyphen tail ->
  dataset_name_match (year ++ "-" ++ institution ++ "-" ++ rest ++ tail)
  = Some (year, institution, rest).
Proof.
  intros ((y1 & y & -> & Hy1 & Hy) & Hi & Hil & Hr & Hrl) Hstop.
  unfold digits_exactly in Hy. apply andb_prop in Hy as [Hlen Hy].
  destruct y as [| y2 [| y3 [| y4 [| ? ?]]]]; try discriminate Hlen.
  unfold dataset_name_match. simpl. simpl in Hy. rewrite Hy1, Hy. simpl.
  change ("" ++ institution ++ "-" ++ rest ++ tail)
    with (institution ++ String "-" (rest ++ tail)).
  rewrite (list_ascii_of_string_app institution). simpl.
  rewrite (span_app is_lower _ _ Hil) by reflexivity.
  destruct (list_ascii_of_string institution) as [| i1 il] eqn:Hlist.
  { destruct institution; [contradiction | discriminate Hlist]. }
  rewrite (list_ascii_of_string_app rest).
  rewrite (span_app is_lower_or_hyphen _ _ Hrl)
    by (rewrite string_of_list_ascii_of_string; exact Hstop).
  destruct (list_ascii_of_string rest) as [| r1 rl] eqn:Hlist'.
  { destruct rest; [contradiction | discriminate Hlist']. }
  change (String i1 (string_of_list_ascii il)) with (string_of_list_ascii (i1 :: il)).
  change (String r1 (string_of_list_ascii rl)) with (string_of_list_ascii (r1 :: rl)).
  rewrite <- Hlist, <- Hlist', !string_of_list_ascii_of_string. reflexivity.
Qed.

(** X11: when [ensure_valid] returns, the directory and the data file
    exist and the name is the year, a hyphen, the institution, a hyphen and
    the third group, possibly followed by more text that the pattern does
    not look at: the year has four digits and no leading zero, the
    institution is a non-empty run of lower-case letters, the third group
    a non-empty run of lower-case letters and hyphens that cannot be
    extended. *)
Theorem ensure_valid_sound (name : string) (is_dir is_file : bool)
    (year institution rest : string) :
  ensure_valid name is_dir is_file = Ok (year, institution, rest) ->
  is_dir = true /\ is_file = true /\
  name_parts_ok year institution rest /\
  exists tail,
    name = year ++ "-" ++ institution ++ "-" ++ rest ++ tail /\
    stops_at is_lower_or_hyphen tail.
Proof.
  unfold ensure_valid. intros H.
  destruct (dataset_name_match name) as [[[y i] r] |] eqn:Hm; [| discriminate H].
  destruct is_dir; [| discriminate H]. destruct is_file; [| discriminate H].
  injection H as -> -> ->. split; [reflexivity |]. split; [reflexivity |].
  apply dataset_name_match_sound, Hm.
Qed.

Lemma ensure_valid_sound_witness :
  name_parts_ok "2025" "umcg" "hypopharynx-larynx" /\
  exists tail,
    "2025-umcg-hypopharynx-larynx_v2"
    = "2025" ++ "-" ++ "umcg" ++ "-" ++ "hypopharynx-larynx" ++ tail /\
    stops_at is_lower_or_hyphen tail.
Proof.
  apply (ensure_valid_sound "2025-umcg-hypopharynx-larynx_v2" true true
           "2025" "umcg" "hypopharynx-larynx" eq_refl).
Defined.

(** X12: a name put together from a well-shaped year, institution and
    third group is taken apart into these three parts again, if the
    directory and the file exist; text after the third group is accepted
    without complaint as long as it cannot extend that group.  A name that
    does not match is refused before the file system is looked at. *)
Theorem ensure_valid_round_trip (year institution rest tail : string)
    (is_dir is_file : bool) :
  name_parts_ok year institution rest ->
  stops_at is_lower_or_hyphen tail ->
  ensure_valid (year ++ "-" ++ institution ++ "-" ++ rest ++ tail) true true
  = Ok (year, institution, rest) /\
  (forall name, dataset_name_match name = None ->
     exists e, ensure_valid name is_dir is_file = Raise e /\
               exn_cls e = ValueError).
Proof.
  intros Hparts Hstop. split.
  - unfold ensure_valid. rewrite (dataset_name_match_complete _ _ _ _ Hparts Hstop).
    reflexivity.
  - intros name Hnone. unfold ensure_valid. rewrite Hnone. eexists. split; reflexivity.
Qed.

Lemma ensure_valid_round_trip_witness :
  ensure_valid ("2021" ++ "-" ++ "usz" ++ "-" ++ "oropharynx" ++ ".bak") true true
  = Ok ("2021", "usz", "oropharynx").
Proof.
  apply (proj1 (ensure_valid_round_trip "2021" "usz" "oropharynx" ".bak" true true
                  ltac:(repeat split; try discriminate;
                        exists "2"%char, "021"; repeat split)
                  eq_refl)).
Defined.

Lemma upper_char_of_lower a : is_lower a = true -> is_upper (upper_char a) = true.
Proof.
  intros H. destruct a as [[] [] [] [] [] [] [] []]; vm_compute in H;
    try discriminate H; reflexivity.
Qed.

Lemma upper_of_lower s :
  forallb is_lower (list_ascii_of_string s) = true ->
  forallb is_upper (list_ascii_of_string (upper s)) = true /\
  String.length (upper s) = String.length s.
Proof.
  induction s as [| a s IH]; simpl; [auto |].
  intros H. apply andb_prop in H as [Ha Hs]. destruct (IH Hs) as [IH1 IH2].
  rewrite (upper_char_of_lower a Ha), IH1, IH2. auto.
Qed.

(** X18: the two steps of the script fit together: when [ensure_valid]
    accepts a dataset and it has at least one row, [generate_ids] on the
    year and institution that [ensure_valid] returned gives IDs that all
    start with the year, a hyphen and the institution in capital letters
    A to Z, and then the suffix, a hyphen and the number. *)
Theorem ids_of_valid_dataset (num_width_of : Z -> nat) (name : string)
    (is_dir is_file : bool) (year institution rest suffix : string)
    (num start : Z) :
  ensure_valid name is_dir is_file = Ok (year, institution, rest) ->
  1 <= num ->
  forallb is_upper (list_ascii_of_string (upper institution)) = true /\
  String.length (upper institution) = String.length institution /\
  exists ids,
    generate_ids num_width_of year institution num start suffix = Ok ids /\
    forall id, id ∈ ids ->
      exists number, id = (year ++ "-" ++ upper institution ++ suffix) ++ "-" ++ number.
Proof.
  intros Hvalid Hnum.
  destruct (ensure_valid_sound _ _ _ _ _ _ Hvalid)
    as (_ & _ & (_ & _ & Hlower & _) & _).
  destruct (upper_of_lower institution Hlower) as [Hup Hlen].
  split; [exact Hup |]. split; [exact Hlen |].
  unfold generate_ids. destruct (Z.leb_spec num 0) as [Hle | _]; [lia |].
  eexists. split; [reflexivity |].
  intros id Hin. apply list_elem_of_fmap in Hin as (i & -> & _). eauto.
Qed.

Lemma ids_of_valid_dataset_witness :
  forallb is_upper (list_ascii_of_string (upper "umcg")) = true /\
  String.length (upper "umcg") = String.length "umcg" /\
  exists ids,
    generate_ids (fun _ => 2%nat) "2025" "umcg" 12 1 "r" = Ok ids /\
    forall id, id ∈ ids ->
      exists number, id = ("2025" ++ "-" ++ upper "umcg" ++ "r") ++ "-" ++ number.
Proof.
  apply (ids_of_valid_dataset (fun _ => 2%nat) "2025-umcg-hypopharynx-larynx"
           true true "2025" "umcg" "hypopharynx-larynx" "r" 12 1 eq_refl).
  lia.
Defined.

(** ** [icd_to_location] and its table *)

Lemma subsites_locations_known :
  map_Forall (fun (_ : string) (entry : string * string) => fst entry ∈ known_locations)
    SUBSITES.
Proof. apply (bool_decide_unpack _). vm_compute. reflexivity. Qed.

Lemma subsites_categories_agree :
  map_Forall (fun (c1 : string) (e1 : string * string) =>
    map_Forall (fun (c2 : string) (e2 : string * string) =>
      icd_category c1 = icd_category c2 -> fst e1 = fst e2) SUBSITES) SUBSITES.
Proof. apply (bool_decide_unpack _). vm_compute. reflexivity. Qed.

(** X13: [icd_to_location] never raises; it answers "unknown" exactly for
    a code that is not a key of [SUBSITES], and one of oral cavity,
    oropharynx, hypopharynx and larynx for a key.  The salivary gland
    codes, commented out in the table, are unknown. *)
Theorem icd_to_location_unknown_iff (icd_code : string) :
  (icd_to_location icd_code = "unknown" <-> SUBSITES !! icd_code = None) /\
  (icd_code ∈ dom SUBSITES <-> icd_to_location icd_code ∈ known_locations) /\
  icd_to_location "C08" = "unknown".
Proof.
  assert (Hknown : ~ "unknown" ∈ known_locations).
  { unfold known_locations. rewrite !elem_of_cons, elem_of_nil.
    intros [H | [H | [H | [H | []]]]]; discriminate H. }
  unfold icd_to_location. rewrite elem_of_dom.
  destruct (SUBSITES !! icd_code) as [entry |] eqn:Hlook.
  - pose proof (subsites_locations_known icd_code entry Hlook) as Hin. simpl in Hin.
    split; [split; [intros Heq; rewrite Heq in Hin; contradiction | discriminate] |].
    split; [split; [intros _; exact Hin | eauto] | vm_compute; reflexivity].
  - split; [split; reflexivity |].
    split; [split; [intros [? H]; discriminate H | intros H; contradiction]
           | vm_compute; reflexivity].
Qed.

(** X14: among the codes of [SUBSITES] the location depends on the
    three-character category only: a code and its sub-codes (C13, C13.0,
    C13.9, ...) are never given different locations. *)
Theorem icd_location_by_category (code1 code2 : string) :
  code1 ∈ dom SUBSITES -> code2 ∈ dom SUBSITES ->
  icd_category code1 = icd_category code2 ->
  icd_to_location code1 = icd_to_location code2.
Proof.
  rewrite !elem_of_dom. intros [e1 H1] [e2 H2] Hcat.
  unfold icd_to_location. rewrite H1, H2.
  exact (subsites_categories_agree code1 e1 H1 code2 e2 H2 Hcat).
Qed.

Lemma icd_location_by_category_witness :
  icd_to_location "C13.2" = icd_to_location "C13".
Proof.
  apply (icd_location_by_category "C13.2" "C13").
  - apply elem_of_dom. eexists. vm_compute. reflexivity.
  - apply elem_of_dom. eexists. vm_compute. reflexivity.
  - reflexivity.
Defined.

(** ** More on the earliest date *)

(** A minimum of a list in string order is unique. *)
Lemma min_unique (l1 l2 : list string) m1 m2 :
  (forall x, In x l1 <-> In x l2) ->
  In m1 l1 -> (forall x, In x l1 -> String.leb m1 x = true) ->
  In m2 l2 -> (forall x, In x l2 -> String.leb m2 x = true) ->
  m1 = m2.
Proof.
  intros Hsame Hin1 Hmin1 Hin2 Hmin2. apply String.leb_antisym.
  - apply Hmin1, Hsame, Hin2.
  - apply Hmin2, Hsame, Hin1.
Qed.

Lemma py_min_same_elements (l1 l2 : list string) :
  (forall x, In x l1 <-> In x l2) -> py_min l1 = py_min l2.
Proof.
  intros Hsame.
  pose proof (py_min_spec l1) as H1. pose proof (py_min_spec l2) as H2.
  destruct l1 as [| a1 l1], l2 as [| a2 l2].
  - reflexivity.
  - exfalso. apply (Hsame a2). left. reflexivity.
  - exfalso. apply (Hsame a1). left. reflexivity.
  - destruct H1 as (m1 & -> & Hin1 & Hmin1). destruct H2 as (m2 & -> & Hin2 & Hmin2).
    f_equal. eapply min_unique; eassumption.
Qed.

Lemma parsed_dates_app dateparse l1 l2 :
  parsed_dates dateparse (l1 ++ l2)
  = (parsed_dates dateparse l1 ++ parsed_dates dateparse l2)%list.
Proof. unfold parsed_dates. apply omap_app. Qed.

Section EarliestDateMore.

Variable dateparse : string -> option date.

(** X15: the order of the columns given to [get_earlier_date] does not
    matter: on entries that are text or missing, a permutation of the
    entries gives the same date, or raises as well. *)
Theorem get_earlier_date_permutation (entries entries' : list cell) :
  Forall (fun e => text_or_missing e = true) entries ->
  entries ≡ₚ entries' ->
  get_earlier_date dateparse entries = get_earlier_date dateparse entries'.
Proof.
  intros Hall Hperm.
  assert (Hall' : Forall (fun e => text_or_missing e = true) entries')
    by (rewrite <- Hperm; exact Hall).
  rewrite (get_earlier_date_min _ _ Hall), (get_earlier_date_min _ _ Hall').
  apply py_min_same_elements. intros x.
  assert (Hp : parsed_dates dateparse entries ≡ₚ parsed_dates dateparse entries')
    by (unfold parsed_dates; rewrite Hperm; reflexivity).
  rewrite <- !list_elem_of_In. rewrite Hp. reflexivity.
Qed.

(** X16: further columns never lose or delay the date: if the first
    columns alone give the date [m1], then with more columns appended the
    call still returns, with [m1] when the added columns hold no parseable
    date, and otherwise with the smaller of [m1] and the date [m2] of the
    added columns alone. *)
Theorem get_earlier_date_app (entries more : list cell) (m1 : string) :
  Forall (fun e => text_or_missing e = true) entries ->
  Forall (fun e => text_or_missing e = true) more ->
  get_earlier_date dateparse entries = Ok m1 ->
  (parsed_dates dateparse more = [] ->
     get_earlier_date dateparse (entries ++ more) = Ok m1) /\
  (forall m2, get_earlier_date dateparse more = Ok m2 ->
     get_earlier_date dateparse (entries ++ more) = Ok (keep_smaller m1 m2)) /\
  (exists m, get_earlier_date dateparse (entries ++ more) = Ok m /\
             String.leb m m1 = true).
Proof.
  intros Hall Hmore.
  assert (Hboth : Forall (fun e => text_or_missing e = true) (entries ++ more))
    by (apply Forall_app; split; assumption).
  rewrite (get_earlier_date_min _ _ Hall), (get_earlier_date_min _ _ Hmore),
    (get_earlier_date_min _ _ Hboth), parsed_dates_app.
  generalize (parsed_dates dateparse entries) as l1.
  generalize (parsed_dates dateparse more) as l2. clear. intros l2 l1 H1.
  destruct l1 as [| d1 r1]; [discriminate H1 |]. injection H1 as H1.
  assert (Hfold : py_min ((d1 :: r1) ++ l2) = Ok (fold_left keep_smaller l2 m1)).
  { simpl. rewrite fold_left_app, H1. reflexivity. }
  split; [intros ->; rewrite app_nil_r; simpl; rewrite H1; reflexivity |].
  split.
  - intros m2 H2. destruct l2 as [| d2 r2]; [discriminate H2 |].
    injection H2 as H2. rewrite Hfold. f_equal.
    pose proof (fold_min_in (d2 :: r2) m1) as Hin.
    pose proof (fold_min_le_init (d2 :: r2) m1) as Hle1.
    pose proof (fold_min_le_all (d2 :: r2) m1) as Hleall.
    pose proof (fold_min_in r2 d2) as Hin2. rewrite H2 in Hin2.
    pose proof (fold_min_le_init r2 d2) as Hle2. rewrite H2 in Hle2.
    pose proof (fold_min_le_all r2 d2) as Hleall2. rewrite H2 in Hleall2.
    assert (Hm2 : forall x, In x (d2 :: r2) -> String.leb m2 x = true).
    { intros x [<- | Hx]; [exact Hle2 | apply Hleall2, Hx]. }
    set (m := fold_left keep_smaller (d2 :: r2) m1) in *.
    apply String.leb_antisym.
    + unfold keep_smaller. destruct (String.ltb m2 m1) eqn:Hlt.
      * apply Hleall, Hin2.
      * exact Hle1.
    + destruct Hin as [Hm | Hm].
      * rewrite <- Hm. apply keep_smaller_le_l.
      * eapply leb_trans; [apply keep_smaller_le_r | apply Hm2, Hm].
  - exists (fold_left keep_smaller l2 m1). split; [exact Hfold |].
    apply fold_min_le_init.
Qed.

End EarliestDateMore.

Lemma get_earlier_date_permutation_witness :
  get_earlier_date (dateparser_at (Date 2024 5 17))
    [CStr "2021-07-30"; CNaN; CStr "2021-07-04"]
  = get_earlier_date (dateparser_at (Date 2024 5 17))
      [CStr "2021-07-04"; CStr "2021-07-30"; CNaN].
Proof.
  apply (get_earlier_date_permutation (dateparser_at (Date 2024 5 17))
           [CStr "2021-07-30"; CNaN; CStr "2021-07-04"]
           [CStr "2021-07-04"; CStr "2021-07-30"; CNaN]).
  - repeat constructor.
  - symmetry.
    apply (Permutation_cons_append [CStr "2021-07-30"; CNaN] (CStr "2021-07-04")).
Defined.

Lemma get_earlier_date_app_witness :
  get_earlier_date (dateparser_at (Date 2024 5 17))
    ([CStr "2021-07-30"] ++ [CNone; CStr "2021-07-04"])
  = Ok (keep_smaller "2021-07-30" "2021-07-04").
Proof.
  apply (proj1 (proj2 (get_earlier_date_app (dateparser_at (Date 2024 5 17))
                         [CStr "2021-07-30"] [CNone; CStr "2021-07-04"] "2021-07-30"
                         ltac:(repeat constructor) ltac:(repeat constructor)
                         eq_refl))).
  reflexivity.
Defined.

(** ** [is_smaller_or_nan] on numbers *)

(** X17: for a finite float entry and an integer threshold
    [is_smaller_or_nan] compares the entry truncated toward zero: an
    answer true is always right (the entry is below the threshold), and
    for entries that are not negative the answer is exactly the
    comparison; but a negative fraction is rounded up first, so -0.5 is
    not found smaller than 0. *)
Theorem is_smaller_or_nan_float (q : Q) (t : Z) :
  (exists b, is_smaller_or_nan (CFloat q) (CInt t) = Ok (Some b) /\
     (b = true -> Qlt q (inject_Z t)) /\
     (Qle (inject_Z 0) q -> (b = true <-> Qlt q (inject_Z t)))) /\
  is_smaller_or_nan (CFloat (Qmake (-1) 2)) (CInt 0) = Ok (Some false) /\
  Qlt (Qmake (-1) 2) (inject_Z 0).
Proof.
  split; [| split; reflexivity].
  destruct q as [n d]. eexists. split; [reflexivity |].
  unfold Qlt, Qle. simpl. rewrite !Z.mul_1_r.
  pose proof (Z.quot_rem' n (Z.pos d)) as Hqr.
  assert (Hd : 0 < Z.pos d) by apply Pos2Z.is_pos.
  split.
  - intros Hb. apply Z.ltb_lt in Hb.
    destruct (Z.le_gt_cases 0 n) as [Hn | Hn].
    + pose proof (Z.rem_bound_pos n (Z.pos d) Hn Hd). nia.
    + pose proof (Z.rem_nonpos n (Z.pos d) ltac:(lia) ltac:(lia)). nia.
  - intros Hn. assert (0 <= n) by lia.
    pose proof (Z.rem_bound_pos n (Z.pos d) ltac:(lia) Hd).
    rewrite Z.ltb_lt. split; intros; nia.
Qed.

(** ** [int] on text: some literals *)

Example int_examples :
  int_of_string " 12 " = Some 12 /\ int_of_string "-1_000" = Some (-1000) /\
  int_of_string "1__0" = None /\ int_of_string "x" = None /\
  int_of_string "" = None /\ int_of_string "0.5" = None.
Proof. vm_compute. repeat split. Qed.

(** The separators FS, GS, RS and US (codes 28 to 31) are not stripped by
    [int], unlike the six characters of codes 9 to 13 and 32. *)
Example int_separators :
  map (fun n => int_of_string (String (ascii_of_nat n) "1")) [28; 29; 30; 31]%nat
  = [None; None; None; None] /\
  map (fun n => int_of_string (String (ascii_of_nat n) "1")) [9; 10; 11; 12; 13; 32]%nat
  = [Some 1; Some 1; Some 1; Some 1; Some 1; Some 1] /\
  map (fun n => int_of_string ("1" ++ String (ascii_of_nat n) "")) [9; 10; 11; 12; 13; 32]%nat
  = [Some 1; Some 1; Some 1; Some 1; Some 1; Some 1] /\
  robust_int (CStr (String (ascii_of_nat 28) "1")) = Ok None /\
  t_stage_mapping (CStr (String (ascii_of_nat 28) "1")) CNone = Ok None.
Proof. repeat split; vm_compute; reflexivity. Qed.
